(** * Antigravity Quota Watcher Plus: the startup retry controller

    A shallow embedding of [src/extension.ts] (the revision with the phased
    startup retry, the second of the two revisions the file holds) and the
    properties of its retry controller.

    The extension runs on a single-threaded event loop.  Its module state is
    the flag [is_initialized]; the rest of what the controller "remembers"
    lives in the event loop: the timers armed by [setTimeout] and the calls
    of [initialize_extension] suspended at
    [await process_finder.detect_process_info()].  The embedding makes both
    explicit, and records every call to a collaborator (status bar, quota
    manager, [vscode.window], logger, process finder, [setTimeout]) in a
    chronological trace.

    Conventions.  The collaborators are known by their calls only: a call
    is recorded and returns, and only [detect_process_info] may raise.  It
    may raise any value: one whose [message] and [stack] can be read, or
    [undefined] or [null], on which reading a property throws.  What
    [config_manager.get_config()] returns is an input of the turn that reads
    it.  Armed timers may fire in any order, and a detection may stay in
    flight for any number of turns: the model allows every schedule the
    host's clock allows. *)

From Stdlib Require Import ZArith Ascii String List Bool Lia DecimalString DecimalNat.
From stdpp Require Import base option list.

Import ListNotations.
Local Open Scope Z_scope.
Local Open Scope string_scope.
Local Open Scope list_scope.
Local Open Scope nat_scope.

(** ** Data *)

(** What [config_manager.get_config()] returns, as far as this file reads
    it. *)
Record config := Config {
  enabled : bool;
  polling_interval : Z;
  show_prompt_credits : option bool
}.

(** The object [detect_process_info] resolves to when it finds the
    process. *)
Record process_info := ProcessInfo {
  extension_port : Z;
  connect_port : Z;
  csrf_token : string
}.

(** A thrown value whose properties can be read: the catch block reads
    [e.message] and [e.stack]. *)
Record js_error := JsError {
  message : string;
  stack : string
}.

(** The two values on which reading a property throws a [TypeError]. *)
Inductive nullish := JsUndefined | JsNull.

(** How an awaited [detect_process_info()] settles: a truthy object, a
    falsy value, a rejection with a readable value, or a rejection with
    [undefined] or [null]. *)
Inductive detect_result :=
| Found (info : process_info)
| NotFound
| Raised (e : js_error)
| RaisedNullish (v : nullish).

(** The fields of a snapshot that the [on_update] callback reads. *)
Record quota_snapshot := QuotaSnapshot {
  models : option (list string);
  prompt_credits : option (Z * Z);
  timestamp : Z
}.

Inductive log_level := LSection | LInfo | LDebug | LError.

(** Calls to the collaborators.  A [Log] keeps the level and the message
    text; the category (always ['Extension']) and object payloads passed
    as further arguments are left out.  A [LogNumber] is a message with
    one number of the configuration in it, which the host prints as a
    double: the number is kept as it is, between the text before and the
    text after it. *)
Inductive effect :=
| Log (lvl : log_level) (text : string)
| LogNumber (lvl : log_level) (before : string) (x : Z) (after : string)
| LoggerShow
| ShowInformationMessage (text : string)
| ShowErrorMessage (text : string)
| StatusShowLoading (annotation : option string)
| StatusShowWaiting
| StatusShowError (msg : string)
| StatusShowMenu
| StatusUpdate (snapshot : quota_snapshot) (show_credits : bool)
| StatusDispose
| QuotaInit (port : Z) (token : string)
| QuotaStartPolling (interval : Z)
| QuotaStopPolling
| QuotaFetch
| DetectProcessInfo
| SetTimeout (delay : Z) (next_attempt : nat).

(** An armed timer [setTimeout(() => initialize_extension(attempt + 1), delay)]:
    the closure captures [attempt]. *)
Record timer := Timer {
  t_attempt : nat;
  t_delay : Z
}.

(** A call of [initialize_extension] suspended at its [await]: its
    parameter [attempt] and the local [config] it read before suspending. *)
Record pending := Pending {
  p_attempt : nat;
  p_config : config
}.

(** How the promise of [initialize_extension] settles: fulfilled, or
    rejected with the [TypeError] of reading a property of [undefined] or
    [null]. *)
Inductive completion :=
| Fulfilled
| RejectedTypeError (v : nullish).

Record state := State {
  activated : bool;           (* the four managers have been assigned *)
  is_initialized : bool;
  timers : list timer;        (* armed, not yet fired *)
  in_flight : list pending;   (* detections started, not yet settled *)
  trace : list effect;        (* oldest first *)
  startup_call : option nat   (* where in [in_flight] the call made by
                                 [activate], the one with a [.catch], sits *)
}.

(** The module as loaded, before [activate] runs. *)
Definition init_state : state :=
  {| activated := false; is_initialized := false;
     timers := []; in_flight := []; trace := []; startup_call := None |}.

(** ** State updates *)

Definition emit (es : list effect) (s : state) : state :=
  {| activated := activated s; is_initialized := is_initialized s;
     timers := timers s; in_flight := in_flight s;
     trace := trace s ++ es; startup_call := startup_call s |}.

Definition set_activated (b : bool) (s : state) : state :=
  {| activated := b; is_initialized := is_initialized s;
     timers := timers s; in_flight := in_flight s; trace := trace s;
     startup_call := startup_call s |}.

Definition set_initialized (b : bool) (s : state) : state :=
  {| activated := activated s; is_initialized := b;
     timers := timers s; in_flight := in_flight s; trace := trace s;
     startup_call := startup_call s |}.

Definition set_startup_call (k : option nat) (s : state) : state :=
  {| activated := activated s; is_initialized := is_initialized s;
     timers := timers s; in_flight := in_flight s; trace := trace s;
     startup_call := k |}.

(** [setTimeout(() => initialize_extension(attempt + 1), delay)]. *)
Definition set_timeout (attempt : nat) (delay : Z) (s : state) : state :=
  {| activated := activated s; is_initialized := is_initialized s;
     timers := timers s ++ [Timer attempt delay]; in_flight := in_flight s;
     trace := trace s ++ [SetTimeout delay (attempt + 1)];
     startup_call := startup_call s |}.

(** Calling [process_finder.detect_process_info()] and suspending on it. *)
Definition await_detect (p : pending) (s : state) : state :=
  {| activated := activated s; is_initialized := is_initialized s;
     timers := timers s; in_flight := in_flight s ++ [p];
     trace := trace s ++ [DetectProcessInfo];
     startup_call := startup_call s |}.

Definition drop_timer (i : nat) (s : state) : state :=
  {| activated := activated s; is_initialized := is_initialized s;
     timers := delete i (timers s); in_flight := in_flight s;
     trace := trace s; startup_call := startup_call s |}.

(** Where the startup call sits once the call at position [i] has left
    [in_flight]. *)
Definition shift_startup (i : nat) (k : option nat) : option nat :=
  match k with
  | Some k => if i <? k then Some (k - 1)
              else if i =? k then None
              else Some k
  | None => None
  end.

Definition drop_in_flight (i : nat) (s : state) : state :=
  {| activated := activated s; is_initialized := is_initialized s;
     timers := timers s; in_flight := delete i (in_flight s);
     trace := trace s; startup_call := shift_startup i (startup_call s) |}.

(** ** Template strings *)

Definition show_nat (n : nat) : string :=
  NilEmpty.string_of_uint (Nat.to_uint n).

(** Used for the two delays, 5000 and 60000, which print as written. *)
Definition show_Z (z : Z) : string :=
  NilZero.string_of_int (Z.to_int z).

(** ** [initialize_extension] *)

Definition MAX_PHASE1_ATTEMPTS : nat := 12.
Definition MAX_PHASE2_ATTEMPTS : nat := 9.
Definition MAX_ATTEMPTS : nat := MAX_PHASE1_ATTEMPTS + MAX_PHASE2_ATTEMPTS.

(** The template [`(${attempt}/${MAX_ATTEMPTS})`]. *)
Definition attempt_annotation (attempt total : nat) : string :=
  "(" ++ show_nat attempt ++ "/" ++ show_nat total ++ ")".

(** The argument of [status_bar.show_loading]. *)
Definition loading_annotation (attempt : nat) : option string :=
  if 0 <? attempt then Some (attempt_annotation attempt MAX_ATTEMPTS) else None.

(** From entry up to the [await]: the guard on [is_initialized], the
    section header on the first attempt, the loading signal, the call to
    the process finder.  [cfg] is what [config_manager.get_config()]
    returns at this call. *)
Definition initialize_extension (attempt : nat) (cfg : config) (s : state) : state :=
  if is_initialized s then
    emit [Log LDebug "Already initialized, skipping"] s
  else
    let s := if attempt =? 0
             then emit [Log LSection "Initializing Extension"] s else s in
    let s := emit [StatusShowLoading (loading_annotation attempt)] s in
    let s := emit [Log LInfo ("Detecting Antigravity process... (attempt "
                              ++ show_nat (attempt + 1) ++ "/"
                              ++ show_nat MAX_ATTEMPTS ++ ")")] s in
    await_detect (Pending attempt cfg) s.

(** What the [try] block hands to the [catch] block: a value that can be
    read, or [undefined] or [null]. *)
Inductive thrown :=
| ThrownValue (e : js_error)
| ThrownNullish (v : nullish).

(** The [try] block after the [await]; [Some x] when the awaited promise
    rejected with [x], which leaves the block at once. *)
Definition try_block (p : pending) (r : detect_result) (s : state)
  : state * option thrown :=
  let attempt := p_attempt p in
  let config := p_config p in
  match r with
  | Raised e => (s, Some (ThrownValue e))
  | RaisedNullish v => (s, Some (ThrownNullish v))
  | Found info =>
      let s := emit [Log LInfo "Process found successfully";
                     QuotaInit (connect_port info) (csrf_token info)] s in
      let s := if enabled config
               then emit [LogNumber LDebug "Starting polling with interval: "
                                    (polling_interval config) "ms";
                          QuotaStartPolling (polling_interval config)] s
               else s in
      let s := set_initialized true s in
      (emit [Log LInfo "Initialization successful"] s, None)
  | NotFound =>
      if attempt <? MAX_PHASE1_ATTEMPTS then
        let delay := 5000%Z in
        let s := emit [Log LDebug ("Phase 1: Retry in " ++ show_Z delay ++ "ms")] s in
        (set_timeout attempt delay s, None)
      else if attempt <? MAX_ATTEMPTS then
        let delay := 60000%Z in
        let s := emit [Log LDebug ("Phase 2: Retry in " ++ show_Z delay ++ "ms")] s in
        (set_timeout attempt delay s, None)
      else
        (emit [Log LInfo "Max retries reached, entering waiting state";
               Log LInfo "Antigravity not found. Waiting for manual reconnect.";
               StatusShowWaiting] s, None)
  end.

(** The [catch (e: any)] block and how it ends.  It first builds the
    payload of its log line from [e.message] and [e.stack]: on [undefined]
    or [null] that read throws, before anything is logged, armed or
    shown. *)
Definition catch_block (p : pending) (x : thrown) (s : state) : state * completion :=
  let attempt := p_attempt p in
  match x with
  | ThrownNullish v => (s, RejectedTypeError v)
  | ThrownValue e =>
      let s := emit [Log LError "Detection failed with exception:"] s in
      if attempt <? MAX_ATTEMPTS then
        let delay := if attempt <? MAX_PHASE1_ATTEMPTS then 5000%Z else 60000%Z in
        (set_timeout attempt delay s, Fulfilled)
      else
        (emit [StatusShowWaiting] s, Fulfilled)
  end.

(** The rest of [initialize_extension] once the detection has settled,
    with the way its own promise settles. *)
Definition initialize_extension_resume (p : pending) (r : detect_result) (s : state)
  : state * completion :=
  match try_block p r s with
  | (s', None) => (s', Fulfilled)
  | (s', Some x) => catch_block p x s'
  end.

(** ** Commands, callbacks and [activate] *)

(** [agq.refresh] *)
Definition cmd_refresh (s : state) : state :=
  emit [Log LInfo "Manual refresh triggered";
        ShowInformationMessage "Refreshing Quota...";
        QuotaFetch] s.

(** [agq.show_menu] *)
Definition cmd_show_menu (s : state) : state :=
  emit [Log LDebug "Show menu triggered"; StatusShowMenu] s.

(** [agq.activate] *)
Definition cmd_activate (cfg : config) (s : state) : state :=
  let s := emit [Log LInfo "Manual activation triggered"] s in
  if negb (is_initialized s) then initialize_extension 0 cfg s
  else emit [ShowInformationMessage "AGQ is already active"] s.

(** [agq.reconnect] *)
Definition cmd_reconnect (cfg : config) (s : state) : state :=
  let s := emit [Log LInfo "Reconnect triggered";
                 ShowInformationMessage "Reconnecting to Antigravity process..."] s in
  let s := set_initialized false s in
  let s := emit [QuotaStopPolling; StatusShowLoading None] s in
  initialize_extension 0 cfg s.

(** [agq.show_logs] *)
Definition cmd_show_logs (s : state) : state :=
  emit [Log LInfo "Opening debug log panel";
        LoggerShow;
        ShowInformationMessage "Debug log panel opened"] s.

(** The [quota_manager.on_update] callback; [cfg] is the configuration it
    reads. *)
Definition on_update (snapshot : quota_snapshot) (cfg : config) (s : state) : state :=
  emit [Log LDebug "Quota update received:";
        StatusUpdate snapshot (default false (show_prompt_credits cfg))] s.

(** The [quota_manager.on_error] callback, on [err.message]. *)
Definition on_error (msg : string) (s : state) : state :=
  emit [Log LError ("Quota error: " ++ msg); StatusShowError msg] s.

(** The [config_manager.on_config_change] listener. *)
Definition on_config_change (new_config : config) (s : state) : state :=
  let s := emit [Log LInfo "Config changed:"] s in
  if enabled new_config
  then emit [QuotaStartPolling (polling_interval new_config)] s
  else emit [QuotaStopPolling] s.

(** [activate]: builds the managers, registers commands and callbacks
    (which only makes the entry points above reachable), and starts the
    first initialization without awaiting it, with a [.catch] on its
    promise; when that call suspends, its place in [in_flight] is kept.
    [version] and [now] stand for [vscode.version] and
    [new Date().toISOString()]. *)
Definition activate (version now : string) (cfg : config) (s : state) : state :=
  let s := emit [Log LSection "Antigravity Quota Activating";
                 Log LInfo ("VS Code Version: " ++ version);
                 Log LInfo ("Extension activating at: " ++ now)] s in
  let s := set_activated true s in
  let s := emit [Log LDebug "Initial config:";
                 Log LDebug "Starting async initialization..."] s in
  let suspends := negb (is_initialized s) in
  let position := length (in_flight s) in
  let s := initialize_extension 0 cfg s in
  let s := if suspends then set_startup_call (Some position) s else s in
  emit [Log LInfo "Extension activation complete"] s.

(** [deactivate]: the optional calls reach the managers only once
    [activate] has assigned them. *)
Definition deactivate (s : state) : state :=
  let s := emit [Log LInfo "Extension deactivating"] s in
  if activated s then emit [QuotaStopPolling; StatusDispose] s else s.

(** ** The event loop *)

(** What the host can run next.  Events that start [initialize_extension]
    carry the configuration it will read; [EvTimerFire] and
    [EvDetectSettle] name a timer or a suspended call by its position. *)
Inductive event :=
| EvActivate (version now : string) (cfg : config)
| EvRefresh
| EvShowMenu
| EvActivateCmd (cfg : config)
| EvReconnect (cfg : config)
| EvShowLogs
| EvQuotaUpdate (snapshot : quota_snapshot) (cfg : config)
| EvQuotaError (msg : string)
| EvConfigChange (new_config : config)
| EvTimerFire (i : nat) (cfg : config)
| EvDetectSettle (i : nat) (r : detect_result)
| EvDeactivate.

(** Runs that are possible only once the entry point exists. *)
Definition when_activated (s : state) (s' : state) : option state :=
  if activated s then Some s' else None.

(** Whether the call at position [i] of [in_flight] is the one [activate]
    made. *)
Definition is_startup_call (i : nat) (s : state) : bool :=
  match startup_call s with
  | Some k => i =? k
  | None => false
  end.

(** What becomes of the promise of [initialize_extension].  Only the call
    made by [activate] has a handler for a rejection, which logs it; a
    rejection of a call made by a command or by a timer goes to the
    host. *)
Definition settle_promise (startup : bool) (sc : state * completion) : state :=
  match sc with
  | (s, Fulfilled) => s
  | (s, RejectedTypeError _) =>
      if startup then emit [Log LError "Failed to initialize AG Quota Watcher:"] s
      else s
  end.

(** One turn of the event loop; [None] when the event cannot happen in
    [s] (a command before activation, a timer that is not armed, a
    detection that is not in flight, a second activation). *)
Definition step (ev : event) (s : state) : option state :=
  match ev with
  | EvActivate version now cfg =>
      if activated s then None else Some (activate version now cfg s)
  | EvRefresh => when_activated s (cmd_refresh s)
  | EvShowMenu => when_activated s (cmd_show_menu s)
  | EvActivateCmd cfg => when_activated s (cmd_activate cfg s)
  | EvReconnect cfg => when_activated s (cmd_reconnect cfg s)
  | EvShowLogs => when_activated s (cmd_show_logs s)
  | EvQuotaUpdate snapshot cfg => when_activated s (on_update snapshot cfg s)
  | EvQuotaError msg => when_activated s (on_error msg s)
  | EvConfigChange new_config => when_activated s (on_config_change new_config s)
  | EvTimerFire i cfg =>
      t ← timers s !! i;
      Some (initialize_extension (t_attempt t + 1) cfg (drop_timer i s))
  | EvDetectSettle i r =>
      p ← in_flight s !! i;
      Some (settle_promise (is_startup_call i s)
              (initialize_extension_resume p r (drop_in_flight i s)))
  | EvDeactivate => Some (deactivate s)
  end.

Fixpoint run (evs : list event) (s : state) : option state :=
  match evs with
  | [] => Some s
  | ev :: evs' => s' ← step ev s; run evs' s'
  end.

(** ** Observations on a trace *)

Definition is_log (e : effect) : bool :=
  match e with Log _ _ | LogNumber _ _ _ _ => true | _ => false end.

(** The trace without the log lines: what reaches the status bar, the
    dialogs, the quota manager, the process finder and the timer queue. *)
Definition signals (tr : list effect) : list effect :=
  List.filter (fun e => negb (is_log e)) tr.

(** A user-facing error: the status bar's error signal or an error
    dialog. *)
Definition is_user_error (e : effect) : bool :=
  match e with
  | StatusShowError _ | ShowErrorMessage _ => true
  | _ => false
  end.

Definition is_detect (e : effect) : bool :=
  match e with DetectProcessInfo => true | _ => false end.

Definition is_fetch (e : effect) : bool :=
  match e with QuotaFetch => true | _ => false end.

Definition count (f : effect -> bool) (tr : list effect) : nat :=
  length (List.filter f tr).

(** The state with its log lines removed. *)
Definition observable (s : state) : bool * bool * list timer * list pending * list effect :=
  (activated s, is_initialized s, timers s, in_flight s, signals (trace s)).

(** The run in which every detection comes back empty.  After activation
    the first detection is in flight; it settles with not-found, and each
    further round is "the armed timer fires, the detection it starts
    settles with not-found".  [cfgs k] is the configuration read when the
    [k]-th timer fires.  [consecutive_failures cfgs n] holds exactly [n]
    failed detections. *)
Definition retry_round (cfgs : nat -> config) (k : nat) : list event :=
  [EvTimerFire 0 (cfgs k); EvDetectSettle 0 NotFound].

Definition consecutive_failures (cfgs : nat -> config) (n : nat) : list event :=
  match n with
  | 0 => []
  | S m => EvDetectSettle 0 NotFound :: flat_map (retry_round cfgs) (seq 0 m)
  end.

(** The timers requested in a trace: delay and the attempt number the
    timer will start. *)
Fixpoint scheduled (tr : list effect) : list (Z * nat) :=
  match tr with
  | [] => []
  | SetTimeout d a :: tr' => (d, a) :: scheduled tr'
  | _ :: tr' => scheduled tr'
  end.

(** The retry table as the specification words it (fast: attempt < 12, 5 s;
    slow: 12 <= attempt < 21, 60 s; waiting: attempt >= 21): the delay that
    follows a failed attempt, [None] in the waiting phase.  The code is
    compared with it below. *)
Definition table_delay (attempt : nat) : option Z :=
  if attempt <? 12 then Some 5000%Z
  else if attempt <? 21 then Some 60000%Z
  else None.

(** What a state looks like to the rest of the retry run: the timers
    requested so far, what is armed, what is in flight, how many
    detections were started and the last signal sent. *)
Definition retry_view (s : state)
  : list (Z * nat) * list timer * list pending * nat * option effect :=
  (scheduled (trace s), timers s, in_flight s,
   count is_detect (trace s), last (signals (trace s))).

(** The 21 timers of a run without success: attempts 0 to 11 ask for 5 s,
    attempts 12 to 20 for 60 s; each timer starts the next attempt. *)
Definition full_schedule : list (Z * nat) :=
  map (fun a => (5000%Z, a + 1)) (seq 0 12) ++
  map (fun a => (60000%Z, a + 1)) (seq 12 9).

(** ** Classes of results, effects and events *)

(** A rejection with [undefined] or [null], which escapes the [catch]
    block. *)
Definition escapes (r : detect_result) : bool :=
  match r with RaisedNullish _ => true | _ => false end.

(** A failed detection the controller gets to handle: a not-found result
    or a raised value it can read. *)
Definition is_failure (r : detect_result) : bool :=
  match r with NotFound | Raised _ => true | _ => false end.

Definition is_loading (e : effect) : bool :=
  match e with StatusShowLoading _ => true | _ => false end.

Definition is_start_polling (e : effect) : bool :=
  match e with QuotaStartPolling _ => true | _ => false end.

(** The events that call [initialize_extension] with attempt 0. *)
Definition restarts (ev : event) : bool :=
  match ev with
  | EvActivate _ _ _ | EvActivateCmd _ | EvReconnect _ => true
  | _ => false
  end.

Definition is_reconnect (ev : event) : bool :=
  match ev with EvReconnect _ => true | _ => false end.

(** ** What one turn changes

    The effect of a turn on the controller: the flag, the armed timers,
    the detections in flight and the number of detections started. *)
Inductive turn (s : state) : event -> state -> Prop :=
| turn_idle ev s' :
    restarts ev = false ->
    is_initialized s' = is_initialized s ->
    timers s' = timers s ->
    in_flight s' = in_flight s ->
    count is_detect (trace s') = count is_detect (trace s) ->
    turn s ev s'
| turn_restart ev cfg s' :
    restarts ev = true ->
    (is_reconnect ev = false -> is_initialized s = false) ->
    is_initialized s' = false ->
    timers s' = timers s ->
    in_flight s' = in_flight s ++ [Pending 0 cfg] ->
    count is_detect (trace s') = count is_detect (trace s) + 1 ->
    turn s ev s'
| turn_already_active ev s' :
    restarts ev = true ->
    is_reconnect ev = false ->
    is_initialized s = true ->
    is_initialized s' = true ->
    timers s' = timers s ->
    in_flight s' = in_flight s ->
    count is_detect (trace s') = count is_detect (trace s) ->
    turn s ev s'
| turn_retry i cfg t s' :
    timers s !! i = Some t ->
    is_initialized s = false ->
    is_initialized s' = false ->
    timers s' = delete i (timers s) ->
    in_flight s' = in_flight s ++ [Pending (t_attempt t + 1) cfg] ->
    count is_detect (trace s') = count is_detect (trace s) + 1 ->
    turn s (EvTimerFire i cfg) s'
| turn_retry_skipped i cfg t s' :
    timers s !! i = Some t ->
    is_initialized s = true ->
    is_initialized s' = true ->
    timers s' = delete i (timers s) ->
    in_flight s' = in_flight s ->
    count is_detect (trace s') = count is_detect (trace s) ->
    turn s (EvTimerFire i cfg) s'
| turn_found i p info s' :
    in_flight s !! i = Some p ->
    is_initialized s' = true ->
    timers s' = timers s ->
    in_flight s' = delete i (in_flight s) ->
    count is_detect (trace s') = count is_detect (trace s) ->
    turn s (EvDetectSettle i (Found info)) s'
| turn_failed i p r s' :
    in_flight s !! i = Some p ->
    is_failure r = true ->
    is_initialized s' = is_initialized s ->
    timers s' = timers s ++ match table_delay (p_attempt p) with
                            | Some d => [Timer (p_attempt p) d]
                            | None => []
                            end ->
    in_flight s' = delete i (in_flight s) ->
    count is_detect (trace s') = count is_detect (trace s) ->
    turn s (EvDetectSettle i r) s'
| turn_escaped i p v s' :
    in_flight s !! i = Some p ->
    is_initialized s' = is_initialized s ->
    timers s' = timers s ->
    in_flight s' = delete i (in_flight s) ->
    count is_detect (trace s') = count is_detect (trace s) ->
    turn s (EvDetectSettle i (RaisedNullish v)) s'.

(** Detections in flight plus timers armed: the number of retry chains
    alive. *)
Definition chains (s : state) : nat :=
  length (in_flight s) + length (timers s).

(** A turn that does not start a chain beside a live one: any turn but a
    restart; a restart while no chain is alive; an activation or an
    activate command on an initialized controller, which only says so. *)
Definition keeps_one_chain (s : state) (ev : event) : bool :=
  negb (restarts ev)
  || (chains s =? 0)
  || (negb (is_reconnect ev) && is_initialized s).

(** A run all of whose turns are such turns. *)
Fixpoint one_chain_run (evs : list event) (s : state) : bool :=
  match evs with
  | [] => true
  | ev :: evs' =>
      keeps_one_chain s ev
      && match step ev s with
         | Some s' => one_chain_run evs' s'
         | None => true
         end
  end.

(** ** Sample values for the concrete runs below *)

Definition sample_config : config := Config true 120%Z None.
Definition sample_disabled_config : config := Config false 120%Z None.
Definition sample_info : process_info :=
  ProcessInfo 42100%Z 42101%Z "0f4c9a7e-token".
Definition sample_version : string := "1.100.0".
Definition sample_now : string := "2026-01-01T00:00:00.000Z".
Definition sample_error : js_error := JsError "spawn ENOENT" "".

(** The controller parked in the waiting state. *)
Definition sample_waiting : state :=
  State true false [] [] [StatusShowWaiting] None.

(** Attempt 3 has failed and its retry is armed. *)
Definition sample_retrying : state :=
  State true false [Timer 3 5000%Z] [] [] None.

(** Attempt 4 has failed and its retry is armed. *)
Definition sample_armed : state :=
  State true false [Timer 4 5000%Z] [] [] None.

(** The detection of attempt 3 is in flight. *)
Definition sample_detecting : state :=
  State true false [] [Pending 3 sample_config] [] None.

(** The detection of attempt 21, the last one, is in flight. *)
Definition sample_last_attempt : state :=
  State true false [] [Pending 21 sample_config] [] None.

(** The startup chain runs dry, a reconnect from the waiting state starts
    the next one, which succeeds; the activate command then finds the
    controller active. *)
Definition sample_two_chains : list event :=
  EvActivate sample_version sample_now sample_config
  :: consecutive_failures (fun _ => sample_config) 22
  ++ [EvReconnect sample_config; EvRefresh; EvDetectSettle 0 NotFound;
      EvTimerFire 0 sample_config; EvDetectSettle 0 (Found sample_info);
      EvActivateCmd sample_config].

(** ** Further observations on runs *)

Definition is_quota_error (ev : event) : bool :=
  match ev with EvQuotaError _ => true | _ => false end.

Definition is_quota_init (e : effect) : bool :=
  match e with QuotaInit _ _ => true | _ => false end.

(** The delay the code picks after a failed attempt below [MAX_ATTEMPTS]. *)
Definition retry_delay (attempt : nat) : Z :=
  if attempt <? MAX_PHASE1_ATTEMPTS then 5000%Z else 60000%Z.

(** What a chain sends when every detection from attempt [a] on fails and
    [m] retries are left before the last attempt: per retry the timer, the
    loading signal and the detection of the next attempt; at the end the
    waiting signal. *)
Fixpoint retry_signals (a m : nat) : list effect :=
  match m with
  | 0 => [StatusShowWaiting]
  | S m' =>
      SetTimeout (retry_delay a) (a + 1)
      :: StatusShowLoading (loading_annotation (a + 1))
      :: DetectProcessInfo
      :: retry_signals (a + 1) m'
  end.

(** An armed timer agrees with the phases: 5 s when it captured an attempt
    below 12, 60 s when it captured one from 12 to 20. *)
Definition timer_in_phase (t : timer) : Prop :=
  (t_attempt t < 12 /\ t_delay t = 5000%Z)
  \/ (12 <= t_attempt t < 21 /\ t_delay t = 60000%Z).

(** The detections a chain can still start: a detection in flight at
    attempt [a], or a timer that captured [a], is followed by at most
    [MAX_ATTEMPTS - a] more. *)
Definition attempts_left (a : nat) : nat := MAX_ATTEMPTS - a.

Definition budget (s : state) : nat :=
  list_sum (map (fun p => attempts_left (p_attempt p)) (in_flight s))
  + list_sum (map (fun t => attempts_left (t_attempt t)) (timers s)).

(** * The revision before the retry

    The first revision of [extension.ts] in the file differs in
    [initialize_extension] only: one detection, and an error on the status
    bar when it fails.  Its stopwatch ([logger.time_start] and the function
    it returns) is logging and is left out like the payloads. *)

Module Rev1.

Definition quote : string := String (ascii_of_nat 34) EmptyString.

(** From entry up to the [await].  This revision has no attempt number;
    the suspended call is recorded with attempt 0. *)
Definition initialize_extension (cfg : config) (s : state) : state :=
  if is_initialized s then
    emit [Log LDebug "Already initialized, skipping"] s
  else
    let s := emit [Log LSection "Initializing Extension"] s in
    let s := emit [StatusShowLoading None] s in
    let s := emit [Log LInfo "Detecting Antigravity process..."] s in
    await_detect (Pending 0 cfg) s.

(** The [try] block after the [await].  The error dialog carries one
    button, [Show Logs]. *)
Definition try_block (p : pending) (r : detect_result) (s : state)
  : state * option thrown :=
  let config := p_config p in
  match r with
  | Raised e => (s, Some (ThrownValue e))
  | RaisedNullish v => (s, Some (ThrownNullish v))
  | Found info =>
      let s := emit [Log LInfo "Process found successfully";
                     QuotaInit (connect_port info) (csrf_token info)] s in
      let s := if enabled config
               then emit [LogNumber LDebug "Starting polling with interval: "
                                    (polling_interval config) "ms";
                          QuotaStartPolling (polling_interval config)] s
               else s in
      let s := set_initialized true s in
      (emit [Log LInfo "Initialization successful"] s, None)
  | NotFound =>
      (emit [Log LError "Antigravity process not found";
             Log LInfo "Troubleshooting tips:";
             Log LInfo "   1. Make sure Antigravity extension is installed and enabled";
             Log LInfo "   2. Check if the language_server process is running";
             Log LInfo "   3. Try reloading VS Code";
             Log LInfo ("   4. Open " ++ quote ++ "Output" ++ quote
                        ++ " panel and select " ++ quote ++ "Antigravity Quota"
                        ++ quote ++ " for detailed logs");
             StatusShowError "Antigravity process not found";
             ShowErrorMessage
               ("Could not find Antigravity process. Is it running? Use "
                ++ quote ++ "AGQ: Show Debug Log" ++ quote ++ " to see details.")]
          s, None)
  end.

(** The [catch (e: any)] block and how it ends: reading [e.message] on
    [undefined] or [null] throws before anything is logged or shown. *)
Definition catch_block (x : thrown) (s : state) : state * completion :=
  match x with
  | ThrownNullish v => (s, RejectedTypeError v)
  | ThrownValue e =>
      (emit [Log LError "Detection failed with exception:";
             StatusShowError "Detection failed"] s, Fulfilled)
  end.

Definition initialize_extension_resume (p : pending) (r : detect_result) (s : state)
  : state * completion :=
  match try_block p r s with
  | (s', None) => (s', Fulfilled)
  | (s', Some x) => catch_block x s'
  end.

(** The callback on the error dialog: [action] is the button the user
    chose, if any. *)
Definition error_dialog_closed (action : option string) (s : state) : state :=
  match action with
  | Some a => if String.eqb a "Show Logs" then emit [LoggerShow] s else s
  | None => s
  end.

(** [agq.activate] *)
Definition cmd_activate (cfg : config) (s : state) : state :=
  let s := emit [Log LInfo "Manual activation triggered"] s in
  if negb (is_initialized s) then initialize_extension cfg s
  else emit [ShowInformationMessage "AGQ is already active"] s.

(** [agq.reconnect] *)
Definition cmd_reconnect (cfg : config) (s : state) : state :=
  let s := emit [Log LInfo "Reconnect triggered";
                 ShowInformationMessage "Reconnecting to Antigravity process..."] s in
  let s := set_initialized false s in
  let s := emit [QuotaStopPolling; StatusShowLoading None] s in
  initialize_extension cfg s.

(** [activate] *)
Definition activate (version now : string) (cfg : config) (s : state) : state :=
  let s := emit [Log LSection "Antigravity Quota Activating";
                 Log LInfo ("VS Code Version: " ++ version);
                 Log LInfo ("Extension activating at: " ++ now)] s in
  let s := set_activated true s in
  let s := emit [Log LDebug "Initial config:";
                 Log LDebug "Starting async initialization..."] s in
  let suspends := negb (is_initialized s) in
  let position := length (in_flight s) in
  let s := initialize_extension cfg s in
  let s := if suspends then set_startup_call (Some position) s else s in
  emit [Log LInfo "Extension activation complete"] s.

(** One turn of the event loop of this revision; the other handlers are
    the ones of the later revision, which left them untouched.  No timer
    is ever armed, so none fires. *)
Definition step (ev : event) (s : state) : option state :=
  match ev with
  | EvActivate version now cfg =>
      if activated s then None else Some (activate version now cfg s)
  | EvRefresh => when_activated s (cmd_refresh s)
  | EvShowMenu => when_activated s (cmd_show_menu s)
  | EvActivateCmd cfg => when_activated s (cmd_activate cfg s)
  | EvReconnect cfg => when_activated s (cmd_reconnect cfg s)
  | EvShowLogs => when_activated s (cmd_show_logs s)
  | EvQuotaUpdate snapshot cfg => when_activated s (on_update snapshot cfg s)
  | EvQuotaError msg => when_activated s (on_error msg s)
  | EvConfigChange new_config => when_activated s (on_config_change new_config s)
  | EvTimerFire _ _ => None
  | EvDetectSettle i r =>
      p ← in_flight s !! i;
      Some (settle_promise (is_startup_call i s)
              (initialize_extension_resume p r (drop_in_flight i s)))
  | EvDeactivate => Some (deactivate s)
  end.

Fixpoint run (evs : list event) (s : state) : option state :=
  match evs with
  | [] => Some s
  | ev :: evs' => s' ← step ev s; run evs' s'
  end.

End Rev1.

(** * The status bar ([ui/status_bar.ts])

    The manager behind [status_bar] in the revision of the file at hand
    (its [show_loading] takes no annotation yet).  A string holds UTF-16
    code units below 256, one per character.  Numbers are the host's
    doubles: the type and the three operations the file applies to a
    percentage are parameters. *)

Module StatusBar.

(** ** Reading a property of an object literal

    [TABLE[label]] finds the literal's own entry, or else a member the
    literal inherits from [Object.prototype], or else [undefined]. *)

Definition OBJECT_PROTOTYPE_MEMBERS : list string :=
  ["constructor"; "__defineGetter__"; "__defineSetter__"; "hasOwnProperty";
   "__lookupGetter__"; "__lookupSetter__"; "isPrototypeOf";
   "propertyIsEnumerable"; "toString"; "valueOf"; "__proto__";
   "toLocaleString"].

Inductive property :=
| Own (v : string)
| Inherited
| Undefined.

Fixpoint own_property (table : list (string * string)) (key : string) : option string :=
  match table with
  | [] => None
  | (k, v) :: table' => if String.eqb k key then Some v else own_property table' key
  end.

(** [Array.prototype.includes] on strings. *)
Fixpoint array_includes (l : list string) (x : string) : bool :=
  match l with
  | [] => false
  | y :: l' => String.eqb y x || array_includes l' x
  end.

Definition get_property (table : list (string * string)) (key : string) : property :=
  match own_property table key with
  | Some v => Own v
  | None => if array_includes OBJECT_PROTOTYPE_MEMBERS key then Inherited else Undefined
  end.

Definition truthy (p : property) : bool :=
  match p with
  | Own v => negb (String.eqb v EmptyString)
  | Inherited => true
  | Undefined => false
  end.

(** What the two naming functions return: a string, or the inherited
    member the table lookup came back with. *)
Inductive display_name :=
| Name (s : string)
| InheritedMember (key : string).

Definition returned (key : string) (p : property) : display_name :=
  match p with
  | Own v => Name v
  | _ => InheritedMember key
  end.

(** ** The two tables *)

Definition MODEL_ABBREVIATIONS : list (string * string) :=
  [("Gemini 3 Pro (High)", "Gemini 3 Pro (H)");
   ("Gemini 3 Pro (Low)", "Gemini 3 Pro (L)");
   ("Gemini 3 Flash", "Gemini 3 Flash");
   ("Claude Sonnet 4.5", "Claude S4.5");
   ("Claude Sonnet 4.5 (Thinking)", "Claude S4.5T");
   ("Claude Opus 4.5 (Thinking)", "Claude O4.5T");
   ("GPT-OSS 120B (Medium)", "GPT-OSS (M)")].

Definition MODEL_SIMPLE_NAMES : list (string * string) :=
  [("Gemini 3 Pro (High)", "Pro");
   ("Gemini 3 Pro (Low)", "Pro");
   ("Gemini 3 Flash", "Flash");
   ("Claude Sonnet 4.5", "Claude");
   ("Claude Sonnet 4.5 (Thinking)", "Claude");
   ("Claude Opus 4.5 (Thinking)", "Claude");
   ("GPT-OSS 120B (Medium)", "Claude")].

(** ** Characters *)

Definition code (c : ascii) : nat := nat_of_ascii c.

Definition is_digit (c : ascii) : bool := (48 <=? code c) && (code c <=? 57).

Definition is_upper (c : ascii) : bool := (65 <=? code c) && (code c <=? 90).

Definition is_lower (c : ascii) : bool := (97 <=? code c) && (code c <=? 122).

(** [[A-Za-z]] *)
Definition is_letter (c : ascii) : bool := is_upper c || is_lower c.

(** The line terminators [.] does not match: LF and CR. *)
Definition is_line_terminator (c : ascii) : bool :=
  (code c =? 10) || (code c =? 13).

(** [\s]: TAB, LF, VT, FF, CR, space and the no-break space. *)
Definition is_space (c : ascii) : bool :=
  ((9 <=? code c) && (code c <=? 13)) || (code c =? 32) || (code c =? 160).

(** The class [[\s\-_()]]. *)
Definition is_separator (c : ascii) : bool :=
  is_space c || (code c =? 45) || (code c =? 95) || (code c =? 40) || (code c =? 41).

(** A capital letter or a digit. *)
Definition is_caps_or_digit (c : ascii) : bool := is_upper c || is_digit c.

Definition not_separator (c : ascii) : bool := negb (is_separator c).

(** [toUpperCase] on one character; exact on the letters it is applied
    to. *)
Definition to_upper (c : ascii) : ascii :=
  if is_lower c then ascii_of_nat (code c - 32) else c.

Fixpoint string_map (f : ascii -> ascii) (s : string) : string :=
  match s with
  | EmptyString => EmptyString
  | String c s' => String (f c) (string_map f s')
  end.

Fixpoint string_forallb (f : ascii -> bool) (s : string) : bool :=
  match s with
  | EmptyString => true
  | String c s' => f c && string_forallb f s'
  end.

Fixpoint string_existsb (f : ascii -> bool) (s : string) : bool :=
  match s with
  | EmptyString => false
  | String c s' => f c || string_existsb f s'
  end.

(** ** [get_abbreviation] *)

(** [label.split(/[\s\-_()]+/)]: the pieces between the runs of
    separators, empty pieces at the ends included.  [word] is the piece
    being read, [in_run] tells that the previous character was a
    separator. *)
Fixpoint split_from (s : string) (word : string) (in_run : bool) : list string :=
  match s with
  | EmptyString => [word]
  | String c s' =>
      if is_separator c then
        if in_run then split_from s' EmptyString true
        else word :: split_from s' EmptyString true
      else split_from s' (word ++ String c EmptyString) false
  end.

Definition split_separators (label : string) : list string :=
  split_from label EmptyString false.

(** [.filter(Boolean)] on strings: the empty string is the falsy one. *)
Definition filter_boolean (l : list string) : list string :=
  List.filter (fun w => negb (String.eqb w EmptyString)) l.

(** [word.match] on the pattern "at most one letter [[A-Za-z]] in group 1,
    then any run of [.] in group 2, anchored at both ends": group 1 when
    the pattern matches.  It matches when the run of [.] can reach the
    end, that is when the word holds no line terminator; group 1 is then
    the first character when it is a letter and empty otherwise. *)
Definition match_first_letter (word : string) : option string :=
  if string_existsb is_line_terminator word then None
  else match word with
       | String c _ => if is_letter c then Some (String c EmptyString)
                       else Some EmptyString
       | EmptyString => Some EmptyString
       end.

(** [(word.match(/\d+/) || [''])[0]]: the first run of digits. *)
Fixpoint digit_run (s : string) : string :=
  match s with
  | String c s' => if is_digit c then String c (digit_run s') else EmptyString
  | EmptyString => EmptyString
  end.

Fixpoint first_digits (word : string) : string :=
  match word with
  | String c word' => if is_digit c then String c (digit_run word')
                      else first_digits word'
  | EmptyString => EmptyString
  end.

(** The function mapped over the words.  Its second branch answers a word
    the pattern does not match; the pieces of a split hold no line
    terminator, so it is never taken for them. *)
Definition abbreviate_word (word : string) : string :=
  match match_first_letter word with
  | Some letter => string_map to_upper letter ++ first_digits word
  | None =>
      match word with
      | String c _ => String (to_upper c) EmptyString
      | EmptyString => EmptyString
      end
  end.

Definition abbreviation_fallback (label : string) : string :=
  substring 0 5
    (String.concat EmptyString (map abbreviate_word (filter_boolean (split_separators label)))).

Definition get_abbreviation (label : string) : display_name :=
  let entry := get_property MODEL_ABBREVIATIONS label in
  if truthy entry then returned label entry
  else Name (abbreviation_fallback label).

(** ** [get_simple_name] *)

(** [String.prototype.includes]. *)
Fixpoint includes (s needle : string) : bool :=
  String.prefix needle s
  || match s with
     | EmptyString => false
     | String _ s' => includes s' needle
     end.

(** [label.split(' ')[0]]: the label up to its first space. *)
Fixpoint first_word (label : string) : string :=
  match label with
  | EmptyString => EmptyString
  | String c label' =>
      if (code c =? 32) then EmptyString else String c (first_word label')
  end.

(** The pattern matching that follows the table lookup. *)
Definition simple_name_fallback (label : string) : string :=
  if includes label "Claude" || includes label "GPT" then "Claude"
  else if includes label "Pro" then "Pro"
  else if includes label "Flash" then "Flash"
  else first_word label.

Definition get_simple_name (label : string) : display_name :=
  let entry := get_property MODEL_SIMPLE_NAMES label in
  if truthy entry then returned label entry
  else Name (simple_name_fallback label).

(** ** The pinned models and the naming switch

    The settings under [agq] as [config.get] returns them: [None] is
    [undefined]. *)
Record settings := Settings {
  pinnedModels : option (list string);
  useSimpleNames : option bool
}.

(** [get_pinned_models] *)
Definition get_pinned_models (cfg : settings) : list string :=
  default [] (pinnedModels cfg).

(** [get_use_simple_names] *)
Definition get_use_simple_names (cfg : settings) : bool :=
  default true (useSimpleNames cfg).

(** [Array.prototype.indexOf]: the first position, or -1. *)
Fixpoint index_of (l : list string) (x : string) : Z :=
  match l with
  | [] => (-1)%Z
  | y :: l' =>
      if String.eqb y x then 0%Z
      else let i := index_of l' x in
           if (i <? 0)%Z then (-1)%Z else (i + 1)%Z
  end.

(** [toggle_pinned_model]: the list it writes back to [pinnedModels]. *)
Definition toggle_pinned_model (cfg : settings) (model_id : string) : list string :=
  let pinned := default [] (pinnedModels cfg) in
  let index := index_of pinned model_id in
  if (0 <=? index)%Z then delete (Z.to_nat index) pinned
  else pinned ++ [model_id].

(** [toggle_simple_names]: the value it writes back to [useSimpleNames]. *)
Definition toggle_simple_names (cfg : settings) : bool :=
  let current := default true (useSimpleNames cfg) in
  negb current.

(** ** The status bar item *)

Section Host.

(** The host's numbers, [x.toFixed(digits)] and [x < 20]. *)
Variable number : Type.
Variable to_fixed : number -> nat -> string.
Variable below_20 : number -> bool.

(** [vscode.l10n.t] and the text the host prints for an inherited member
    inside a template string. *)
Variable l10n_t : string -> string.
Variable member_text : string -> string.

(** The fields of [model_quota_info] and [quota_snapshot] this file
    reads. *)
Record model_quota_info := ModelQuotaInfo {
  model_id : string;
  label : string;
  remaining_percentage : option number;
  is_exhausted : bool;
  time_until_reset_formatted : string
}.

Record quota_snapshot := QuotaSnapshot {
  models : list model_quota_info
}.

Record item := Item {
  text : string;
  tooltip : option string;
  backgroundColor : option string;
  command : option string;
  shown : bool;
  disposed : bool
}.

Record manager := Manager {
  the_item : item;
  last_snapshot : option quota_snapshot
}.

Definition with_text (s : string) (i : item) : item :=
  Item s (tooltip i) (backgroundColor i) (command i) (shown i) (disposed i).

Definition with_tooltip (s : option string) (i : item) : item :=
  Item (text i) s (backgroundColor i) (command i) (shown i) (disposed i).

Definition with_background (c : option string) (i : item) : item :=
  Item (text i) (tooltip i) c (command i) (shown i) (disposed i).

Definition show (i : item) : item :=
  Item (text i) (tooltip i) (backgroundColor i) (command i) true (disposed i).

(** [constructor] *)
Definition new_manager : manager :=
  Manager (show (Item "$(rocket) AGQ" None None (Some "agq.show_menu") false false))
          None.

(** [show_loading] *)
Definition show_loading (m : manager) : manager :=
  Manager (show (with_text "$(sync~spin) AGQ" (the_item m))) (last_snapshot m).

(** [show_error] *)
Definition show_error (msg : string) (m : manager) : manager :=
  Manager (show (with_background (Some "statusBarItem.errorBackground")
                   (with_tooltip (Some msg)
                      (with_text "$(error) AGQ" (the_item m)))))
          (last_snapshot m).

(** [dispose] *)
Definition dispose (m : manager) : manager :=
  let i := the_item m in
  Manager (Item (text i) (tooltip i) (backgroundColor i) (command i) (shown i) true)
          (last_snapshot m).

(** A display name inside a template string. *)
Definition name_text (d : display_name) : string :=
  match d with
  | Name s => s
  | InheritedMember key => member_text key
  end.

(** One entry of [parts]. *)
Definition status_part (cfg : settings) (m : model_quota_info) : string :=
  let pct := match remaining_percentage m with
             | Some x => (to_fixed x 0 ++ "%")%string
             | None => "N/A"%string
             end in
  let status_icon :=
    if is_exhausted m then "$(error)"%string
    else if match remaining_percentage m with
            | Some x => below_20 x
            | None => false
            end
         then "$(warning)"
         else "$(check)" in
  let use_simple := get_use_simple_names cfg in
  let display_name := if use_simple then get_simple_name (label m)
                      else get_abbreviation (label m) in
  (status_icon ++ " " ++ name_text display_name ++ ": " ++ pct)%string.

(** The models of a snapshot that [update] shows: those whose id is
    pinned. *)
Definition shown_models (cfg : settings) (snapshot : quota_snapshot)
  : list model_quota_info :=
  List.filter (fun q => array_includes (get_pinned_models cfg) (model_id q))
              (models snapshot).

(** [update] *)
Definition update (cfg : settings) (snapshot : quota_snapshot) (show_credits : bool)
    (m : manager) : manager :=
  let pinned := get_pinned_models cfg in
  let pinned_models :=
    List.filter (fun q => array_includes pinned (model_id q)) (models snapshot) in
  let new_text :=
    if (length pinned_models =? 0) && negb show_credits then "$(rocket) AGQ"
    else
      let parts := map (status_part cfg) pinned_models in
      if 0 <? length parts then String.concat "  " parts else "$(rocket) AGQ" in
  Manager
    (show (with_tooltip (Some (l10n_t "Click to view Antigravity Quota details"))
             (with_background None (with_text new_text (the_item m)))))
    (Some snapshot).

End Host.

End StatusBar.

(** * Lemmas *)

(** ** The model on small inputs *)

Example loading_annotation_first : loading_annotation 0 = None.
Proof. reflexivity. Qed.

Example loading_annotation_fifth : loading_annotation 5 = Some "(5/21)".
Proof. reflexivity. Qed.

(** The first attempt after activation: section header, bare loading
    signal, the detection, and the end of [activate]. *)
Example activate_trace :
  signals (trace (activate sample_version sample_now sample_config init_state))
  = [StatusShowLoading None; DetectProcessInfo].
Proof. reflexivity. Qed.

(** The attempt numbered 21 announces itself as attempt 22 of 21. *)
Example last_attempt_trace :
  trace (initialize_extension 21 sample_config sample_waiting)
  = [StatusShowWaiting;
     StatusShowLoading (Some "(21/21)");
     Log LInfo "Detecting Antigravity process... (attempt 22/21)";
     DetectProcessInfo].
Proof. reflexivity. Qed.

(** A not-found result at attempt 11 is still in the fast phase, at
    attempt 12 in the slow one. *)
Example phase_boundary :
  scheduled (trace (fst (initialize_extension_resume
                           (Pending 11 sample_config) NotFound sample_waiting)))
  = [(5000%Z, 12)]
  /\ scheduled (trace (fst (initialize_extension_resume
                              (Pending 12 sample_config) NotFound sample_waiting)))
     = [(60000%Z, 13)].
Proof. split; reflexivity. Qed.

(** ** Traces *)

Lemma signals_app (tr1 tr2 : list effect) :
  signals (tr1 ++ tr2) = signals tr1 ++ signals tr2.
Proof. unfold signals. apply List.filter_app. Qed.

Lemma count_app (f : effect -> bool) (tr1 tr2 : list effect) :
  count f (tr1 ++ tr2) = count f tr1 + count f tr2.
Proof. unfold count. rewrite List.filter_app. apply length_app. Qed.

Lemma count_signals (f : effect -> bool) (tr : list effect) :
  (forall e, is_log e = true -> f e = false) ->
  count f (signals tr) = count f tr.
Proof.
  intros Hf. unfold count, signals.
  induction tr as [| e tr IH]; [reflexivity |]. cbn.
  destruct (is_log e) eqn:He; cbn.
  - rewrite (Hf e He). exact IH.
  - destruct (f e); cbn; now rewrite IH.
Qed.

Lemma count_detect_signals (tr : list effect) :
  count is_detect (signals tr) = count is_detect tr.
Proof. apply count_signals. now intros []. Qed.

Lemma max_attempts_value : MAX_ATTEMPTS = 21.
Proof. reflexivity. Qed.

(** ** The annotation *)

Lemma show_nat_inj (n m : nat) : show_nat n = show_nat m -> n = m.
Proof.
  unfold show_nat. intros H.
  apply DecimalNat.Unsigned.to_uint_inj.
  assert (Hs : Some (Nat.to_uint n) = Some (Nat.to_uint m))
    by (rewrite <- !NilEmpty.usu; now rewrite H).
  now injection Hs.
Qed.

Lemma string_length_append (x t : string) :
  String.length (x ++ t) = String.length x + String.length t.
Proof. induction x as [| c x IH]; [reflexivity |]. cbn. now rewrite IH. Qed.

Lemma string_append_inv_tail (x y t : string) :
  (x ++ t = y ++ t)%string -> x = y.
Proof.
  revert y. induction x as [| c x IH]; intros [| d y] H; cbn in H.
  - reflexivity.
  - apply (f_equal String.length) in H. cbn in H.
    rewrite string_length_append in H. lia.
  - apply (f_equal String.length) in H. cbn in H.
    rewrite string_length_append in H. lia.
  - injection H as -> H. f_equal. now apply IH.
Qed.

(** The annotation names its attempt: two attempts with the same
    annotation are the same attempt. *)
Lemma attempt_annotation_inj (a b total : nat) :
  attempt_annotation a total = attempt_annotation b total -> a = b.
Proof.
  unfold attempt_annotation. intros H. cbn in H. injection H as H.
  apply show_nat_inj. eapply string_append_inv_tail. exact H.
Qed.

(** ** The two halves of [initialize_extension] *)

(** Once initialized, the routine returns at its guard: one debug line,
    nothing else. *)
Lemma initialize_extension_skips (attempt : nat) (cfg : config) (s : state) :
  is_initialized s = true ->
  initialize_extension attempt cfg s
    = emit [Log LDebug "Already initialized, skipping"] s.
Proof. intros H. unfold initialize_extension. now rewrite H. Qed.

(** Otherwise it sends the loading signal, calls the process finder and
    suspends. *)
Lemma initialize_extension_starts (attempt : nat) (cfg : config) (s : state) :
  is_initialized s = false ->
  let s' := initialize_extension attempt cfg s in
  activated s' = activated s
  /\ is_initialized s' = false
  /\ timers s' = timers s
  /\ in_flight s' = in_flight s ++ [Pending attempt cfg]
  /\ signals (trace s')
     = signals (trace s) ++ [StatusShowLoading (loading_annotation attempt);
                             DetectProcessInfo].
Proof.
  intros H. unfold initialize_extension. rewrite H.
  destruct (attempt =? 0); cbn; rewrite ?H, ?signals_app;
    cbn; rewrite <- ?app_assoc, ?app_nil_r; auto.
Qed.

(** The code's retry decision agrees with the table, on a not-found result
    and on an exception alike. *)
Lemma resume_failure_timers (p : pending) (r : detect_result) (s : state) :
  is_failure r = true ->
  let s' := fst (initialize_extension_resume p r s) in
  activated s' = activated s
  /\ is_initialized s' = is_initialized s
  /\ in_flight s' = in_flight s
  /\ timers s'
     = timers s ++ match table_delay (p_attempt p) with
                   | Some d => [Timer (p_attempt p) d]
                   | None => []
                   end
  /\ signals (trace s')
     = signals (trace s) ++ match table_delay (p_attempt p) with
                            | Some d => [SetTimeout d (p_attempt p + 1)]
                            | None => [StatusShowWaiting]
                            end.
Proof.
  intros Hr. unfold initialize_extension_resume, try_block, catch_block, table_delay.
  rewrite max_attempts_value. change MAX_PHASE1_ATTEMPTS with 12.
  destruct r as [info | | e | v]; try discriminate Hr;
    destruct (Nat.ltb_spec (p_attempt p) 12) as [H12 | H12];
    destruct (Nat.ltb_spec (p_attempt p) 21) as [H21 | H21];
    try lia;
    cbn; rewrite ?signals_app; cbn; rewrite <- ?app_assoc, ?app_nil_r;
    repeat split; reflexivity.
Qed.

(** A successful detection installs the connection, starts polling when
    the configuration read by that attempt is enabled, and sets the
    flag. *)
Lemma resume_found (p : pending) (info : process_info) (s : state) :
  let s' := fst (initialize_extension_resume p (Found info) s) in
  activated s' = activated s
  /\ is_initialized s' = true
  /\ timers s' = timers s
  /\ in_flight s' = in_flight s
  /\ signals (trace s')
     = signals (trace s) ++
       QuotaInit (connect_port info) (csrf_token info)
       :: (if enabled (p_config p)
           then [QuotaStartPolling (polling_interval (p_config p))]
           else []).
Proof.
  unfold initialize_extension_resume, try_block.
  destruct (enabled (p_config p)); cbn;
    rewrite ?signals_app; cbn; rewrite <- ?app_assoc, ?app_nil_r;
    repeat split; reflexivity.
Qed.

(** The reconnect command clears the flag and starts attempt 0; the armed
    timers and the detections already in flight stay. *)
Lemma cmd_reconnect_starts (cfg : config) (s : state) :
  let s1 := cmd_reconnect cfg s in
  is_initialized s1 = false
  /\ timers s1 = timers s
  /\ in_flight s1 = in_flight s ++ [Pending 0 cfg]
  /\ signals (trace s1)
     = signals (trace s) ++
       [ShowInformationMessage "Reconnecting to Antigravity process...";
        QuotaStopPolling; StatusShowLoading None;
        StatusShowLoading None; DetectProcessInfo].
Proof.
  unfold cmd_reconnect, initialize_extension. cbn.
  rewrite !signals_app. cbn. rewrite <- !app_assoc. auto.
Qed.

(** ** Turns of the event loop *)

(** A timer that is armed fires, and runs [initialize_extension] on the
    attempt after the one it captured. *)
Lemma step_timer_fire (s : state) (i : nat) (t : timer) (cfg : config) :
  timers s !! i = Some t ->
  step (EvTimerFire i cfg) s
    = Some (initialize_extension (t_attempt t + 1) cfg (drop_timer i s)).
Proof. intros H. unfold step. now rewrite H. Qed.

(** A detection in flight settles and the suspended call goes on. *)
Lemma resume_fulfilled (p : pending) (r : detect_result) (s : state) :
  escapes r = false ->
  snd (initialize_extension_resume p r s) = Fulfilled.
Proof.
  unfold initialize_extension_resume, try_block, catch_block.
  destruct r as [info | | e | v]; try discriminate; intros _;
    repeat match goal with
           | |- context [if ?b then _ else _] => destruct b
           end; reflexivity.
Qed.

Lemma failure_is_handled (r : detect_result) :
  is_failure r = true -> escapes r = false.
Proof. now destruct r. Qed.

Lemma step_detect_settle (s : state) (i : nat) (p : pending) (r : detect_result) :
  in_flight s !! i = Some p ->
  escapes r = false ->
  step (EvDetectSettle i r) s
    = Some (fst (initialize_extension_resume p r (drop_in_flight i s))).
Proof.
  intros H Hr. unfold step. rewrite H. cbn [mbind option_bind].
  pose proof (resume_fulfilled p r (drop_in_flight i s) Hr) as Hc.
  destruct (initialize_extension_resume p r (drop_in_flight i s)) as [s' c].
  cbn in Hc. subst c. reflexivity.
Qed.

(** The call that suspended last sits at the end of [in_flight]. *)
Lemma lookup_last_started (l : list pending) (p : pending) :
  (l ++ [p]) !! length l = Some p.
Proof. now apply list_lookup_middle. Qed.

Lemma delete_last_started (l : list pending) (p : pending) :
  delete (length l) (l ++ [p]) = l.
Proof. rewrite delete_middle. apply app_nil_r. Qed.

Ltac detect_count := rewrite ?count_app; unfold count; cbn; lia.

(** Unfolds the handlers on a state given by its fields, down to the
    controller's fields; they are evaluated innermost first, which keeps
    the terms small. *)
Ltac handler_cbv :=
  cbv beta iota zeta delta
    [activate cmd_refresh cmd_show_menu cmd_activate cmd_reconnect
     cmd_show_logs on_update on_error on_config_change deactivate
     initialize_extension emit set_activated set_initialized await_detect
     set_timeout drop_timer drop_in_flight set_startup_call settle_promise
     activated is_initialized timers in_flight trace startup_call negb];
  cbn [Nat.eqb].

Lemma step_turn (ev : event) (s s' : state) :
  step ev s = Some s' -> turn s ev s'.
Proof.
  destruct s as [act init tms fl tr su].
  destruct ev as [version now cfg | | | cfg | cfg | | snapshot cfg | msg
                 | new_config | i cfg | i r |];
    unfold step, when_activated; cbn [activated timers in_flight]; intros H.
  - (* activate *)
    destruct act; [discriminate |]. injection H as <-.
    destruct init.
    + apply turn_already_active; handler_cbv; auto; detect_count.
    + apply (turn_restart _ _ cfg); handler_cbv; auto; detect_count.
  - destruct act; [| discriminate]. injection H as <-.
    apply turn_idle; handler_cbv; auto; detect_count.
  - destruct act; [| discriminate]. injection H as <-.
    apply turn_idle; handler_cbv; auto; detect_count.
  - (* agq.activate *)
    destruct act; [| discriminate]. injection H as <-.
    destruct init.
    + apply turn_already_active; handler_cbv; auto; detect_count.
    + apply (turn_restart _ _ cfg); handler_cbv; auto; detect_count.
  - (* agq.reconnect *)
    destruct act; [| discriminate]. injection H as <-.
    apply (turn_restart _ _ cfg); handler_cbv; auto;
      try (intros Hr; discriminate Hr); detect_count.
  - destruct act; [| discriminate]. injection H as <-.
    apply turn_idle; handler_cbv; auto; detect_count.
  - destruct act; [| discriminate]. injection H as <-.
    apply turn_idle; handler_cbv; auto; detect_count.
  - destruct act; [| discriminate]. injection H as <-.
    apply turn_idle; handler_cbv; auto; detect_count.
  - destruct act; [| discriminate]. injection H as <-.
    apply turn_idle; handler_cbv; destruct (enabled new_config);
      auto; detect_count.
  - (* a timer fires *)
    destruct (tms !! i) as [t0 |] eqn:Ht; [| discriminate].
    cbn in H. injection H as <-.
    destruct init.
    + apply (turn_retry_skipped _ i cfg t0); handler_cbv; auto; detect_count.
    + apply (turn_retry _ i cfg t0); handler_cbv;
        destruct (t_attempt t0 + 1 =? 0); auto; detect_count.
  - (* a detection settles *)
    destruct (fl !! i) as [p |] eqn:Hp; [| discriminate].
    cbn [mbind option_bind] in H. injection H as <-.
    set (s := State act init tms fl tr su).
    destruct r as [info | | e | v].
    + rewrite (surjective_pairing (initialize_extension_resume _ _ _)),
        (resume_fulfilled p (Found info) _ eq_refl). cbn [settle_promise].
      destruct (resume_found p info (drop_in_flight i s)) as (_ & Hi & Ht & Hf & Hs).
      apply (turn_found s i p info); auto.
      rewrite <- count_detect_signals, Hs, count_app, count_detect_signals.
      destruct (enabled (p_config p)); detect_count.
    + rewrite (surjective_pairing (initialize_extension_resume _ _ _)),
        (resume_fulfilled p NotFound _ eq_refl). cbn [settle_promise].
      destruct (resume_failure_timers p NotFound (drop_in_flight i s) eq_refl)
        as (_ & Hi & Hf & Ht & Hs).
      apply (turn_failed s i p NotFound); auto.
      rewrite <- count_detect_signals, Hs, count_app, count_detect_signals.
      destruct (table_delay (p_attempt p)); detect_count.
    + rewrite (surjective_pairing (initialize_extension_resume _ _ _)),
        (resume_fulfilled p (Raised e) _ eq_refl). cbn [settle_promise].
      destruct (resume_failure_timers p (Raised e) (drop_in_flight i s) eq_refl)
        as (_ & Hi & Hf & Ht & Hs).
      apply (turn_failed s i p (Raised e)); auto.
      rewrite <- count_detect_signals, Hs, count_app, count_detect_signals.
      destruct (table_delay (p_attempt p)); detect_count.
    + apply (turn_escaped s i p v); auto;
        unfold initialize_extension_resume, try_block, catch_block;
        destruct (is_startup_call i s); handler_cbv; auto; detect_count.
  - (* deactivate *)
    injection H as <-. apply turn_idle; handler_cbv; destruct act;
      auto; detect_count.
Qed.

(** ** Invariants of runs *)

Lemma turn_keeps_single_chain (s s' : state) (ev : event) :
  turn s ev s' -> keeps_one_chain s ev = true -> chains s <= 1 -> chains s' <= 1.
Proof.
  unfold keeps_one_chain, chains.
  intros Hturn Hev Hone.
  destruct Hturn as [ev s' _ _ Ht Hf _
                    | ev cfg s' Hre Hguard _ Ht Hf _
                    | ev s' Hre _ _ _ Ht Hf _
                    | i cfg t s' Hl _ _ Ht Hf _
                    | i cfg t s' Hl _ _ Ht Hf _
                    | i p info s' Hl _ Ht Hf _
                    | i p r s' Hl _ _ Ht Hf _
                    | i p v s' Hl _ Ht Hf _];
    rewrite Ht, Hf.
  - exact Hone.
  - rewrite Hre in Hev. cbn [negb orb] in Hev.
    apply orb_true_iff in Hev as [Hdry | Hactive].
    + apply Nat.eqb_eq in Hdry. rewrite length_app. cbn. lia.
    + apply andb_true_iff in Hactive as [Hnr Hinit].
      apply negb_true_iff in Hnr. specialize (Hguard Hnr). congruence.
  - exact Hone.
  - rewrite length_app, length_delete by eauto. cbn.
    apply lookup_lt_Some in Hl. lia.
  - rewrite length_delete by eauto. lia.
  - rewrite length_delete by eauto. lia.
  - rewrite length_app, length_delete by eauto.
    apply lookup_lt_Some in Hl.
    destruct (table_delay (p_attempt p)); cbn; lia.
  - rewrite length_delete by eauto. lia.
Qed.

Lemma run_keeps_single_chain (evs : list event) :
  forall s s',
    one_chain_run evs s = true ->
    run evs s = Some s' -> chains s <= 1 -> chains s' <= 1.
Proof.
  induction evs as [| ev evs IH]; intros s s' Hevs Hrun Hone.
  - cbn in Hrun. now injection Hrun as <-.
  - cbn in Hrun, Hevs. destruct (step ev s) as [s1 |] eqn:Hstep; [| discriminate].
    cbn in Hrun. apply andb_true_iff in Hevs as [Hev Hrest].
    apply (IH s1 s' Hrest Hrun).
    exact (turn_keeps_single_chain s s1 ev (step_turn ev s s1 Hstep) Hev Hone).
Qed.

Lemma turn_stays_initialized (s s' : state) (ev : event) :
  turn s ev s' -> is_reconnect ev = false -> is_initialized s = true ->
  is_initialized s' = true
  /\ count is_detect (trace s') = count is_detect (trace s).
Proof.
  intros Hturn Hev Hinit.
  destruct Hturn as [ev s' _ Hi _ _ Hc
                    | ev cfg s' _ Hguard _ _ _ _
                    | ev s' _ _ _ Hi _ _ Hc
                    | i cfg t s' _ Hclear _ _ _ _
                    | i cfg t s' _ _ Hi _ _ Hc
                    | i p info s' _ Hi _ _ Hc
                    | i p r s' _ _ Hi _ _ Hc
                    | i p v s' _ Hi _ _ Hc];
    try (split; congruence).
  specialize (Hguard Hev). congruence.
Qed.

Lemma run_stays_initialized (evs : list event) :
  forall s s',
    Forall (fun ev => is_reconnect ev = false) evs ->
    run evs s = Some s' -> is_initialized s = true ->
    is_initialized s' = true
    /\ count is_detect (trace s') = count is_detect (trace s).
Proof.
  induction evs as [| ev evs IH]; intros s s' Hevs Hrun Hinit.
  - cbn in Hrun. injection Hrun as <-. auto.
  - cbn in Hrun. destruct (step ev s) as [s1 |] eqn:Hstep; [| discriminate].
    cbn in Hrun. inversion Hevs as [| ? ? Hev Hrest]; subst.
    destruct (turn_stays_initialized s s1 ev (step_turn ev s s1 Hstep) Hev Hinit)
      as [Hinit1 Hc1].
    destruct (IH s1 s' Hrest Hrun Hinit1) as [Hinit' Hc'].
    split; [exact Hinit' | congruence].
Qed.

(** * The claims *)

(** ** C1: the schedule of a run without success *)

(** C1, as the code has it: when every detection comes back not-found, the
    controller asks for exactly 12 delays of 5 s (after attempts 0 to 11)
    and then exactly 9 delays of 60 s (after attempts 12 to 20).  After 21
    failures the last 60 s timer is armed and nothing is waiting yet; the
    attempt numbered 21 that it starts is the 22nd detection, and when that
    one fails the controller signals waiting with no timer armed and no
    detection in flight. *)
Theorem retry_schedule_all_failures :
  forall (version now : string) (cfg : config) (cfgs : nat -> config),
    retry_view <$> run (EvActivate version now cfg :: consecutive_failures cfgs 21) init_state
      = Some (full_schedule, [Timer 20 60000%Z], [], 21,
              Some (SetTimeout 60000%Z 21))
    /\
    retry_view <$> run (EvActivate version now cfg :: consecutive_failures cfgs 22) init_state
      = Some (full_schedule, [], [], 22, Some StatusShowWaiting).
Proof.
  intros version now cfg cfgs. split; vm_compute; reflexivity.
Qed.

(** C1 as stated fails: after 21 consecutive not-found results the
    controller is not waiting, and an automatic attempt is still
    scheduled. *)
Lemma retry_schedule_21_failures_not_waiting :
  ~ (exists s,
        run (EvActivate sample_version sample_now sample_config
               :: consecutive_failures (fun _ => sample_config) 21) init_state
        = Some s
        /\ timers s = []
        /\ last (signals (trace s)) = Some StatusShowWaiting).
Proof.
  intros [s [Hrun [Htimers _]]].
  vm_compute in Hrun. injection Hrun as <-. discriminate Htimers.
Qed.

(** ** C2: reconnect *)

(** C2, as the code has it: in every state, the waiting state included,
    the reconnect command clears the flag, stops polling, shows the loading
    signal and starts a detection at attempt 0; when that detection fails
    the delay asked for is 5 s.  The timers armed before the command are
    left armed: the command cancels nothing. *)
Theorem reconnect_restarts_at_zero :
  forall (s : state) (cfg : config),
    let s1 := cmd_reconnect cfg s in
    is_initialized s1 = false
    /\ timers s1 = timers s
    /\ in_flight s1 = in_flight s ++ [Pending 0 cfg]
    /\ signals (trace s1)
       = signals (trace s) ++
         [ShowInformationMessage "Reconnecting to Antigravity process...";
          QuotaStopPolling; StatusShowLoading None;
          StatusShowLoading None; DetectProcessInfo]
    /\ forall r, is_failure r = true ->
         exists s2,
           step (EvDetectSettle (length (in_flight s)) r) s1 = Some s2
           /\ timers s2 = timers s ++ [Timer 0 5000%Z]
           /\ in_flight s2 = in_flight s
           /\ signals (trace s2) = signals (trace s1) ++ [SetTimeout 5000%Z 1].
Proof.
  intros s cfg s1.
  destruct (cmd_reconnect_starts cfg s) as (Hi & Ht & Hf & Hs).
  fold s1 in Hi, Ht, Hf, Hs.
  split; [exact Hi |]. split; [exact Ht |]. split; [exact Hf |].
  split; [exact Hs |].
  - clearbody s1. intros r Hr.
    eexists. split.
    { apply step_detect_settle; [| exact (failure_is_handled r Hr)].
      rewrite Hf. apply lookup_last_started. }
    destruct (resume_failure_timers (Pending 0 cfg) r
                (drop_in_flight (length (in_flight s)) s1) Hr)
      as (_ & _ & Hf2 & Ht2 & Hs2).
    rewrite Ht2, Hf2, Hs2. unfold drop_in_flight, table_delay.
    cbn [timers in_flight trace p_attempt Nat.ltb Nat.leb Nat.add].
    rewrite Ht, Hf, delete_last_started. auto.
Qed.

Lemma reconnect_restarts_at_zero_witness :
  exists s2,
    step (EvDetectSettle 0 NotFound) (cmd_reconnect sample_config sample_waiting)
    = Some s2
    /\ timers s2 = [Timer 0 5000%Z]
    /\ in_flight s2 = []
    /\ signals (trace s2)
       = signals (trace (cmd_reconnect sample_config sample_waiting))
         ++ [SetTimeout 5000%Z 1].
Proof.
  destruct (reconnect_restarts_at_zero sample_waiting sample_config)
    as (_ & _ & _ & _ & H).
  exact (H NotFound eq_refl).
Defined.

(** C2 as stated fails: a retry armed before the reconnect command is
    still armed after it, fires, and starts attempt 1 next to the attempt 0
    the command started. *)
Lemma reconnect_keeps_armed_timer :
  (fun s => (timers s, in_flight s, count is_detect (trace s)))
    <$> run [EvActivate sample_version sample_now sample_config;
             EvDetectSettle 0 NotFound;
             EvReconnect sample_config;
             EvTimerFire 0 sample_config] init_state
  = Some ([], [Pending 0 sample_config; Pending 1 sample_config], 3).
Proof. vm_compute. reflexivity. Qed.

(** ** C3: one chain, one detection *)

(** C3, as the code has it: at every instant at most one detection is in
    flight, and the next attempt is armed only after the one before it has
    settled (detections in flight and armed timers together number at most
    one), in every run whose restarts (activation, activate command,
    reconnect command) each come while no detection is in flight and no
    timer is armed, or, for activation and the activate command, while the
    controller is initialized.  Any other restart starts a second chain:
    a reconnect command, or an activate command with the flag clear, issued
    while a detection is in flight or a timer is armed puts a detection at
    attempt 0 beside it. *)
Theorem single_chain_single_detection :
  (forall (evs : list event) (s s' : state),
      chains s <= 1 ->
      one_chain_run evs s = true ->
      run evs s = Some s' ->
      length (in_flight s') + length (timers s') <= 1)
  /\ (forall (ev : event) (s s' : state) (cfg : config),
        1 <= chains s ->
        ev = EvReconnect cfg
        \/ (ev = EvActivateCmd cfg /\ is_initialized s = false) ->
        step ev s = Some s' ->
        in_flight s' = in_flight s ++ [Pending 0 cfg]
        /\ timers s' = timers s
        /\ 2 <= chains s').
Proof.
  split.
  - intros evs s s' Hone Hevs Hrun.
    exact (run_keeps_single_chain evs s s' Hevs Hrun Hone).
  - intros ev s s' cfg Halive Hev Hstep.
    assert (Hnew : in_flight s' = in_flight s ++ [Pending 0 cfg]
                   /\ timers s' = timers s).
    { destruct Hev as [-> | [-> Hclear]];
        unfold step, when_activated in Hstep;
        destruct (activated s); try discriminate; injection Hstep as <-.
      - now destruct (cmd_reconnect_starts cfg s) as (_ & Ht & Hf & _).
      - unfold cmd_activate. cbn [is_initialized emit]. rewrite Hclear.
        cbn [negb].
        now destruct (initialize_extension_starts 0 cfg
                        (emit [Log LInfo "Manual activation triggered"] s) Hclear)
          as (_ & _ & Ht & Hf & _). }
    destruct Hnew as [Hf Ht]. split; [exact Hf |]. split; [exact Ht |].
    unfold chains in *. rewrite Hf, Ht, length_app. cbn. lia.
Qed.

Lemma single_chain_single_detection_witness :
  exists s',
    run sample_two_chains init_state = Some s'
    /\ length (in_flight s') + length (timers s') <= 1.
Proof.
  eexists. split.
  - vm_compute. reflexivity.
  - apply (proj1 single_chain_single_detection sample_two_chains init_state).
    + vm_compute. lia.
    + vm_compute. reflexivity.
    + vm_compute. reflexivity.
Defined.

(** C3 as stated fails: the activate command issued while the first
    detection is still in flight starts a second one beside it. *)
Lemma activate_command_starts_second_detection :
  (fun s => (in_flight s, count is_detect (trace s)))
    <$> run [EvActivate sample_version sample_now sample_config;
             EvActivateCmd sample_config] init_state
  = Some ([Pending 0 sample_config; Pending 0 sample_config], 2).
Proof. vm_compute. reflexivity. Qed.

(** ** C4: exceptions during a detection *)

(** A raised value that can be read is handled like a not-found result,
    at every attempt number.  The promise of [initialize_extension] is
    fulfilled; after attempt < 12 a 5 s retry is armed, after
    12 <= attempt < 21 a 60 s retry, and from attempt 21 on the waiting
    signal is sent; and apart from the log lines the resulting state is the
    one a not-found result gives. *)
Lemma exception_handled_as_not_found :
  forall (p : pending) (e : js_error) (s : state),
    let a := p_attempt p in
    let s' := fst (initialize_extension_resume p (Raised e) s) in
    snd (initialize_extension_resume p (Raised e) s) = Fulfilled
    /\ observable s' = observable (fst (initialize_extension_resume p NotFound s))
    /\ timers s'
       = timers s ++ (if a <? 12 then [Timer a 5000%Z]
                      else if a <? 21 then [Timer a 60000%Z] else [])
    /\ signals (trace s')
       = signals (trace s) ++ (if a <? 12 then [SetTimeout 5000%Z (a + 1)]
                               else if a <? 21 then [SetTimeout 60000%Z (a + 1)]
                               else [StatusShowWaiting])
    /\ is_initialized s' = is_initialized s
    /\ in_flight s' = in_flight s.
Proof.
  intros p e s a s'.
  destruct (resume_failure_timers p (Raised e) s eq_refl) as (Ha & Hi & Hf & Ht & Hs).
  destruct (resume_failure_timers p NotFound s eq_refl) as (Ha' & Hi' & Hf' & Ht' & Hs').
  fold s' in Ha, Hi, Hf, Ht, Hs.
  split; [exact (resume_fulfilled p (Raised e) s eq_refl) |].
  repeat split.
  - unfold observable. now rewrite Ha, Hi, Hf, Ht, Hs, Ha', Hi', Hf', Ht', Hs'.
  - rewrite Ht. unfold table_delay. fold a.
    destruct (a <? 12); [reflexivity |]. now destruct (a <? 21).
  - rewrite Hs. unfold table_delay. fold a.
    destruct (a <? 12); [reflexivity |]. now destruct (a <? 21).
  - exact Hi.
  - exact Hf.
Qed.

(** C4 at its failing input: a detection that rejects with [undefined] or
    [null] is not handled.  The catch block throws on its first read, so
    the state stays as it was (no log line, no timer, no waiting signal)
    and the promise of [initialize_extension] is rejected; in the run
    where the first detection after activation rejects so, nothing is
    armed and nothing is in flight afterwards, and the last signal is
    still the detection: the retry sequence has stopped at attempt 0. *)
Theorem nullish_rejection_escapes_catch :
  (forall (p : pending) (v : nullish) (s : state),
      initialize_extension_resume p (RaisedNullish v) s = (s, RejectedTypeError v))
  /\ (fun s => (timers s, in_flight s, signals (trace s)))
       <$> run [EvActivate sample_version sample_now sample_config;
                EvDetectSettle 0 (RaisedNullish JsUndefined)] init_state
     = Some ([], [], [StatusShowLoading None; DetectProcessInfo]).
Proof.
  split.
  - intros p v s. reflexivity.
  - vm_compute. reflexivity.
Qed.

(** ** C5: the attempt counter *)

(** C5, as the code has it: one turn changes the attempt numbers in play
    in these ways only.  A failed detection of attempt [a < 21] arms one
    timer that captures [a]; a timer that captured [a] starts attempt
    [a + 1] when it fires; and a detection at attempt 0 is started by the
    reconnect command, by the activate command (whenever the flag is
    clear, so also in the middle of a retry sequence) and by activation
    itself, and by nothing else. *)
Theorem attempt_counter_discipline :
  forall (ev : event) (s s' : state),
    step ev s = Some s' ->
    (in_flight s' = in_flight s
     \/ (exists i r, ev = EvDetectSettle i r /\ in_flight s' = delete i (in_flight s))
     \/ (exists i cfg t,
            ev = EvTimerFire i cfg /\ timers s !! i = Some t
            /\ in_flight s' = in_flight s ++ [Pending (t_attempt t + 1) cfg])
     \/ (exists cfg,
            restarts ev = true /\ in_flight s' = in_flight s ++ [Pending 0 cfg]))
    /\ (timers s' = timers s
        \/ (exists i cfg, ev = EvTimerFire i cfg /\ timers s' = delete i (timers s))
        \/ (exists i r p d,
               ev = EvDetectSettle i r /\ in_flight s !! i = Some p
               /\ is_failure r = true /\ p_attempt p < 21
               /\ timers s' = timers s ++ [Timer (p_attempt p) d]))
    /\ (forall i r p,
           ev = EvDetectSettle i r -> in_flight s !! i = Some p ->
           is_failure r = true -> p_attempt p < 21 ->
           exists d, timers s' = timers s ++ [Timer (p_attempt p) d])
    /\ (forall i cfg t,
           ev = EvTimerFire i cfg -> timers s !! i = Some t ->
           is_initialized s = false ->
           in_flight s' = in_flight s ++ [Pending (t_attempt t + 1) cfg])
    /\ (forall cfg,
           ev = EvActivateCmd cfg \/ ev = EvReconnect cfg ->
           is_initialized s = false ->
           in_flight s' = in_flight s ++ [Pending 0 cfg]).
Proof.
  intros ev s s' Hstep.
  assert (Htable : forall a, a < 21 -> exists d, table_delay a = Some d).
  { intros a Ha. unfold table_delay.
    destruct (a <? 12); [eauto |].
    destruct (Nat.ltb_spec a 21); [eauto | lia]. }
  assert (Htable' : forall a d, table_delay a = Some d -> a < 21).
  { intros a d. unfold table_delay.
    destruct (Nat.ltb_spec a 12); [lia |].
    destruct (Nat.ltb_spec a 21); [lia | discriminate]. }
  pose proof (step_turn ev s s' Hstep) as Hturn.
  destruct Hturn as [ev s' Hre _ Ht Hf _
                    | ev cfg s' Hre _ _ Ht Hf _
                    | ev s' Hre Hnr Hinit _ Ht Hf _
                    | i cfg t s' Hl Hinit _ Ht Hf _
                    | i cfg t s' Hl Hinit _ Ht Hf _
                    | i p info s' Hl _ Ht Hf _
                    | i p r s' Hl Hr _ Ht Hf _
                    | i p v s' Hl _ Ht Hf _].
  - (* nothing changes *)
    repeat split; auto.
    + intros i r p -> Hp Hfail Hlt.
      rewrite (step_detect_settle s i p r Hp (failure_is_handled r Hfail)) in Hstep.
      injection Hstep as <-.
      destruct (resume_failure_timers p r (drop_in_flight i s) Hfail)
        as (_ & _ & _ & Ht' & _).
      destruct (Htable _ Hlt) as [d Hd]. rewrite Hd in Ht'. eauto.
    + intros i cfg t -> Hl Hinit.
      rewrite (step_timer_fire s i t cfg Hl) in Hstep. injection Hstep as <-.
      now destruct (initialize_extension_starts (t_attempt t + 1) cfg
                      (drop_timer i s) Hinit) as (_ & _ & _ & Hf' & _).
    + intros cfg [-> | ->] _; discriminate Hre.
  - (* an attempt 0 starts *)
    split; [right; right; right; exists cfg; auto |]. split; [auto |].
    split; [intros i r p ->; discriminate Hre |].
    split; [intros i cfg' t ->; discriminate Hre |].
    intros cfg' Hev Hinit.
    destruct Hev as [-> | ->]; unfold step, when_activated in Hstep;
      destruct (activated s); try discriminate; injection Hstep as <-.
    + unfold cmd_activate. cbn. rewrite Hinit. cbn.
      now destruct (initialize_extension_starts 0 cfg'
                      (emit [Log LInfo "Manual activation triggered"] s) Hinit)
        as (_ & _ & _ & Hf' & _).
    + now destruct (cmd_reconnect_starts cfg' s) as (_ & _ & Hf' & _).
  - (* already active *)
    split; [auto |]. split; [auto |].
    split; [intros i r p ->; discriminate Hre |].
    split; [intros i cfg' t ->; discriminate Hre |].
    intros cfg' [-> | ->] Hinit'; [congruence | discriminate Hnr].
  - (* a retry starts *)
    split; [right; right; left; exists i, cfg, t; auto |].
    split; [right; left; exists i, cfg; auto |].
    split; [intros i' r p Hev; discriminate Hev |].
    split; [| intros cfg' [Hev | Hev]; discriminate Hev].
    intros i' cfg' t' Hev Hl' _. injection Hev as <- <-.
    rewrite Hl in Hl'. injection Hl' as <-. exact Hf.
  - (* a retry finds the controller initialized *)
    split; [auto |]. split; [right; left; exists i, cfg; auto |].
    split; [intros i' r p Hev; discriminate Hev |].
    split; [| intros cfg' [Hev | Hev]; discriminate Hev].
    intros i' cfg' t' Hev Hl' Hinit'. congruence.
  - (* success *)
    split; [right; left; exists i, (Found info); auto |]. split; [auto |].
    split; [intros i' r' p' Hev _ Hfail; injection Hev as <- <-; discriminate Hfail |].
    split; [intros i' cfg' t' Hev; discriminate Hev |].
    intros cfg' [Hev | Hev]; discriminate Hev.
  - (* failure *)
    split; [right; left; exists i, r; auto |].
    split.
    { destruct (table_delay (p_attempt p)) as [d |] eqn:Hd.
      - right; right. exists i, r, p, d. rewrite Ht. eauto 10.
      - left. now rewrite Ht, app_nil_r. }
    split.
    { intros i' r' p' Hev Hl' _ Hlt. injection Hev as <- <-.
      rewrite Hl in Hl'. injection Hl' as <-.
      destruct (Htable _ Hlt) as [d Hd]. rewrite Hd in Ht. eauto. }
    split; [intros i' cfg' t' Hev; discriminate Hev |].
    intros cfg' [Hev | Hev]; discriminate Hev.
  - (* a rejection that escapes the catch block *)
    split; [right; left; exists i, (RaisedNullish v); auto |].
    split; [auto |].
    split; [intros i' r' p' Hev _ Hfail; injection Hev as <- <-; discriminate Hfail |].
    split; [intros i' cfg' t' Hev; discriminate Hev |].
    intros cfg' [Hev | Hev]; discriminate Hev.
Qed.

Lemma attempt_counter_discipline_witness :
  exists s',
    step (EvTimerFire 0 sample_config) sample_retrying = Some s'
    /\ in_flight s' = [Pending 4 sample_config].
Proof.
  eexists. split; [vm_compute; reflexivity |].
  destruct (attempt_counter_discipline
              (EvTimerFire 0 sample_config) sample_retrying _ eq_refl)
    as (_ & _ & _ & H & _).
  exact (H 0 sample_config (Timer 3 5000%Z) eq_refl eq_refl eq_refl).
Defined.

(** C5 as stated fails: with attempt 1 failed and its retry armed, the
    activate command starts a detection at attempt 0. *)
Lemma activate_command_restarts_at_zero :
  (fun s => (timers s, in_flight s))
    <$> run [EvActivate sample_version sample_now sample_config;
             EvDetectSettle 0 NotFound;
             EvTimerFire 0 sample_config;
             EvDetectSettle 0 NotFound;
             EvActivateCmd sample_config] init_state
  = Some ([Timer 1 5000%Z], [Pending 0 sample_config]).
Proof. vm_compute. reflexivity. Qed.

(** ** C6: success *)

(** C6, as the code has it: whenever a detection in flight returns a
    connection, the controller installs it with [quota_manager.init],
    starts polling when the configuration read at the start of that
    attempt is enabled (and does not when it is disabled), and sets the
    flag.  From then on, until a reconnect command, the flag stays set and
    no detection is started by any turn: every call of the initialization
    routine, also from a retry timer that fires later, returns at its
    guard. *)
Theorem success_installs_and_halts :
  forall (s : state) (i : nat) (p : pending) (info : process_info),
    in_flight s !! i = Some p ->
    exists s1,
      step (EvDetectSettle i (Found info)) s = Some s1
      /\ is_initialized s1 = true
      /\ timers s1 = timers s
      /\ in_flight s1 = delete i (in_flight s)
      /\ signals (trace s1)
         = signals (trace s) ++
           QuotaInit (connect_port info) (csrf_token info)
           :: (if enabled (p_config p)
               then [QuotaStartPolling (polling_interval (p_config p))]
               else [])
      /\ (forall attempt cfg,
             initialize_extension attempt cfg s1
             = emit [Log LDebug "Already initialized, skipping"] s1)
      /\ (forall evs s2,
             Forall (fun ev => is_reconnect ev = false) evs ->
             run evs s1 = Some s2 ->
             is_initialized s2 = true
             /\ count is_detect (trace s2) = count is_detect (trace s1)).
Proof.
  intros s i p info Hp.
  eexists. split; [apply (step_detect_settle s i p (Found info) Hp eq_refl) |].
  destruct (resume_found p info (drop_in_flight i s)) as (_ & Hi & Ht & Hf & Hs).
  split; [exact Hi |]. split; [exact Ht |]. split; [exact Hf |].
  split; [exact Hs |]. split.
  - intros attempt cfg. now apply initialize_extension_skips.
  - intros evs s2 Hevs Hrun.
    exact (run_stays_initialized evs _ s2 Hevs Hrun Hi).
Qed.

Lemma success_installs_and_halts_witness :
  exists s1,
    step (EvDetectSettle 0 (Found sample_info)) sample_detecting = Some s1
    /\ is_initialized s1 = true
    /\ signals (trace s1)
       = [QuotaInit 42101%Z "0f4c9a7e-token"; QuotaStartPolling 120%Z].
Proof.
  destruct (success_installs_and_halts
              sample_detecting 0 (Pending 3 sample_config) sample_info eq_refl)
    as (s1 & Hstep & Hinit & _ & _ & Hsig & _).
  exists s1. repeat split; assumption.
Defined.

(** C6 as stated fails: with monitoring disabled in the configuration, a
    successful detection installs the connection and sets the flag but
    does not start polling. *)
Lemma success_without_polling_when_disabled :
  (fun s => (is_initialized s, signals (trace s),
             existsb is_start_polling (trace s)))
    <$> run [EvActivate sample_version sample_now sample_disabled_config;
             EvDetectSettle 0 (Found sample_info)] init_state
  = Some (true,
          [StatusShowLoading None; DetectProcessInfo;
           QuotaInit 42101%Z "0f4c9a7e-token"],
          false).
Proof. vm_compute. reflexivity. Qed.

(** ** C7: the waiting state *)

(** C7: entering the waiting state is silent.  When the detection of an
    attempt numbered 21 or more fails (not-found or exception), the only
    signal the controller sends is the waiting signal: no error signal on
    the status bar, no error dialog, and no timer. *)
Theorem waiting_is_silent :
  forall (s : state) (i : nat) (p : pending) (r : detect_result),
    in_flight s !! i = Some p ->
    MAX_ATTEMPTS <= p_attempt p ->
    is_failure r = true ->
    exists s' new,
      step (EvDetectSettle i r) s = Some s'
      /\ trace s' = trace s ++ new
      /\ signals new = [StatusShowWaiting]
      /\ existsb is_user_error new = false
      /\ timers s' = timers s
      /\ in_flight s' = delete i (in_flight s).
Proof.
  intros s i p r Hp Hmax Hr. rewrite max_attempts_value in Hmax.
  rewrite (step_detect_settle s i p r Hp (failure_is_handled r Hr)).
  unfold initialize_extension_resume, try_block, catch_block.
  rewrite max_attempts_value. change MAX_PHASE1_ATTEMPTS with 12.
  destruct (Nat.ltb_spec (p_attempt p) 12) as [H12 | H12]; [lia |].
  destruct (Nat.ltb_spec (p_attempt p) 21) as [H21 | H21]; [lia |].
  destruct r as [info | | e | v]; try discriminate Hr; cbn.
  - eexists _, _. split; [reflexivity |]. cbn. repeat split; reflexivity.
  - eexists _, [Log LError "Detection failed with exception:"; StatusShowWaiting].
    split; [reflexivity |]. cbn. rewrite <- app_assoc. repeat split; reflexivity.
Qed.

Lemma waiting_is_silent_witness :
  exists s' new,
    step (EvDetectSettle 0 NotFound) sample_last_attempt = Some s'
    /\ trace s' = trace sample_last_attempt ++ new
    /\ signals new = [StatusShowWaiting]
    /\ existsb is_user_error new = false
    /\ timers s' = timers sample_last_attempt
    /\ in_flight s' = delete 0 (in_flight sample_last_attempt).
Proof.
  apply (waiting_is_silent sample_last_attempt 0 (Pending 21 sample_config) NotFound).
  - reflexivity.
  - vm_compute. lia.
  - reflexivity.
Defined.

(** ** C8: the loading signal *)

(** The annotation written out: an opening parenthesis, the attempt number
    in decimal, and the text "/21)". *)
Lemma attempt_annotation_text (attempt : nat) :
  attempt_annotation attempt MAX_ATTEMPTS
  = ("(" ++ NilEmpty.string_of_uint (Nat.to_uint attempt) ++ "/21)")%string.
Proof. reflexivity. Qed.

Lemma loading_annotation_inj (a b : nat) :
  loading_annotation a = loading_annotation b -> a = b.
Proof.
  unfold loading_annotation.
  destruct a as [| a], b as [| b]; cbn [Nat.ltb Nat.leb];
    try discriminate; [reflexivity |].
  intros H. apply (attempt_annotation_inj _ _ MAX_ATTEMPTS). congruence.
Qed.

(** C8: the loading signal of an attempt carries an annotation exactly when
    the attempt number is above 0, and the annotation is then the text made
    of an opening parenthesis, the attempt number in decimal, a slash, 21
    and a closing parenthesis; attempt 0 sends the bare loading signal.  (An
    initialized controller sends no loading signal at all.)  Two attempts
    with the same annotation are the same attempt, so the signal identifies
    the attempt. *)
Theorem loading_annotation_iff_retry :
  (forall (attempt : nat) (cfg : config) (s : state),
      List.filter is_loading (trace (initialize_extension attempt cfg s))
      = List.filter is_loading (trace s) ++
        (if is_initialized s then []
         else [StatusShowLoading
                 (match attempt with
                  | 0 => None
                  | S _ =>
                      Some ("(" ++ NilEmpty.string_of_uint (Nat.to_uint attempt)
                            ++ "/21)")%string
                  end)]))
  /\ (forall (a b : nat) (cfg : config) (s : state),
        is_initialized s = false ->
        List.filter is_loading (trace (initialize_extension a cfg s))
        = List.filter is_loading (trace (initialize_extension b cfg s)) ->
        a = b).
Proof.
  assert (Hsig : forall attempt cfg s,
             List.filter is_loading (trace (initialize_extension attempt cfg s))
             = List.filter is_loading (trace s) ++
               (if is_initialized s then []
                else [StatusShowLoading (loading_annotation attempt)])).
  { intros attempt cfg s. unfold initialize_extension.
    destruct s as [act init tms fl tr su]. destruct init.
    - cbn. now rewrite List.filter_app.
    - destruct attempt as [| n]; handler_cbv;
        rewrite !List.filter_app; cbn [List.filter is_loading app];
        rewrite <- ?app_assoc, ?app_nil_r; reflexivity. }
  split.
  - intros attempt cfg s. rewrite Hsig.
    destruct attempt as [| n]; [reflexivity |].
    unfold loading_annotation. change (0 <? S n) with true. cbv iota.
    now rewrite attempt_annotation_text.
  - intros a b cfg s Hclear H. rewrite !Hsig, Hclear in H.
    apply app_inv_head in H. injection H as H.
    exact (loading_annotation_inj a b H).
Qed.

Lemma loading_annotation_iff_retry_witness :
  List.filter is_loading (trace (initialize_extension 5 sample_config sample_armed))
  = [StatusShowLoading (Some "(5/21)")]
  /\ 5 = 5.
Proof.
  split.
  - exact (proj1 loading_annotation_iff_retry 5 sample_config sample_armed).
  - exact (proj2 loading_annotation_iff_retry 5 5 sample_config sample_armed
             eq_refl eq_refl).
Defined.

(** ** C9: configuration changes and manual refresh *)

(** C9: on a configuration change the listener calls [start_polling] with
    the interval of the new configuration when it is enabled and
    [stop_polling] when it is not, and sends nothing else; the refresh
    command calls [fetch_quota] exactly once (next to its information
    message), whatever the state.  Neither touches the controller. *)
Theorem config_change_and_refresh :
  forall (new_config : config) (s : state),
    let s1 := on_config_change new_config s in
    let s2 := cmd_refresh s in
    signals (trace s1)
    = signals (trace s) ++ [if enabled new_config
                            then QuotaStartPolling (polling_interval new_config)
                            else QuotaStopPolling]
    /\ (is_initialized s1, timers s1, in_flight s1)
       = (is_initialized s, timers s, in_flight s)
    /\ signals (trace s2)
       = signals (trace s) ++ [ShowInformationMessage "Refreshing Quota..."; QuotaFetch]
    /\ count is_fetch (trace s2) = count is_fetch (trace s) + 1
    /\ (is_initialized s2, timers s2, in_flight s2)
       = (is_initialized s, timers s, in_flight s).
Proof.
  intros new_config s s1 s2. subst s1 s2.
  unfold on_config_change, cmd_refresh.
  destruct (enabled new_config); unfold emit;
    cbn [trace is_initialized timers in_flight];
    rewrite ?signals_app, ?count_app; cbn;
    rewrite <- ?app_assoc; repeat split; reflexivity.
Qed.

(** ** C10: deactivation *)

(** C10: in every state [deactivate] leaves the flag, the armed timers and
    the detections in flight as they were; what it sends is [stop_polling]
    and the disposal of the status bar, once activation has created the
    managers, and nothing before.  So a retry armed before deactivation
    still fires after it: with the flag clear it starts a detection, and
    when that detection succeeds under an enabled configuration the
    connection is installed and polling is started again. *)
Theorem deactivate_leaves_retry_armed :
  (forall s : state,
      (activated (deactivate s), is_initialized (deactivate s),
       timers (deactivate s), in_flight (deactivate s))
      = (activated s, is_initialized s, timers s, in_flight s)
      /\ signals (trace (deactivate s))
         = signals (trace s) ++
           (if activated s then [QuotaStopPolling; StatusDispose] else []))
  /\ (forall (s : state) (i : nat) (t : timer) (cfg : config) (info : process_info),
        is_initialized s = false ->
        timers s !! i = Some t ->
        enabled cfg = true ->
        exists s1 s2,
          step (EvTimerFire i cfg) (deactivate s) = Some s1
          /\ in_flight s1 = in_flight s ++ [Pending (t_attempt t + 1) cfg]
          /\ timers s1 = delete i (timers s)
          /\ step (EvDetectSettle (length (in_flight s)) (Found info)) s1 = Some s2
          /\ is_initialized s2 = true
          /\ signals (trace s2)
             = signals (trace (deactivate s)) ++
               [StatusShowLoading
                  (Some ("(" ++ NilEmpty.string_of_uint (Nat.to_uint (t_attempt t + 1))
                         ++ "/21)")%string);
                DetectProcessInfo;
                QuotaInit (connect_port info) (csrf_token info);
                QuotaStartPolling (polling_interval cfg)]).
Proof.
  assert (Hframe : forall s,
             (activated (deactivate s), is_initialized (deactivate s),
              timers (deactivate s), in_flight (deactivate s))
             = (activated s, is_initialized s, timers s, in_flight s)).
  { intros [[] init tms fl tr su]; reflexivity. }
  split.
  - intros s. split; [apply Hframe |].
    destruct s as [[] init tms fl tr su];
      cbv beta iota zeta delta [deactivate emit trace activated];
      rewrite !signals_app; cbn [signals List.filter is_log negb];
      rewrite <- ?app_assoc, ?app_nil_r; reflexivity.
  - intros s i t cfg info Hinit Ht Hen.
    specialize (Hframe s). set (s' := deactivate s) in *.
    clearbody s'. injection Hframe as Ha' Hi' Ht' Hf'.
    assert (Hfire : timers s' !! i = Some t) by congruence.
    assert (Hclear : is_initialized (drop_timer i s') = false) by (cbn; congruence).
    destruct (initialize_extension_starts (t_attempt t + 1) cfg (drop_timer i s') Hclear)
      as (_ & _ & Htm1 & Hf1 & Hs1).
    cbn [in_flight trace timers drop_timer] in Hf1, Hs1, Htm1.
    rewrite Hf' in Hf1. rewrite Ht' in Htm1.
    set (s1 := initialize_extension (t_attempt t + 1) cfg (drop_timer i s')) in *.
    assert (Hlast : in_flight s1 !! length (in_flight s)
                    = Some (Pending (t_attempt t + 1) cfg))
      by (rewrite Hf1; apply lookup_last_started).
    destruct (resume_found (Pending (t_attempt t + 1) cfg) info
                (drop_in_flight (length (in_flight s)) s1))
      as (_ & Hi2 & _ & _ & Hs2).
    cbn [trace drop_in_flight p_config] in Hs2. rewrite Hen, Hs1 in Hs2.
    exists s1, (fst (initialize_extension_resume (Pending (t_attempt t + 1) cfg)
                       (Found info) (drop_in_flight (length (in_flight s)) s1))).
    split; [exact (step_timer_fire s' i t cfg Hfire) |].
    split; [exact Hf1 |].
    split; [exact Htm1 |].
    split; [exact (step_detect_settle s1 _ _ (Found info) Hlast eq_refl) |].
    split; [exact Hi2 |].
    rewrite Hs2, <- app_assoc.
    unfold loading_annotation.
    replace (0 <? t_attempt t + 1) with true
      by (symmetry; apply Nat.ltb_lt; lia).
    now rewrite attempt_annotation_text.
Qed.

Lemma deactivate_leaves_retry_armed_witness :
  signals (trace (deactivate sample_armed)) = [QuotaStopPolling; StatusDispose]
  /\ timers (deactivate sample_armed) = [Timer 4 5000%Z]
  /\ exists s1 s2,
       step (EvTimerFire 0 sample_config) (deactivate sample_armed) = Some s1
       /\ timers s1 = []
       /\ step (EvDetectSettle 0 (Found sample_info)) s1 = Some s2
       /\ signals (trace s2)
          = [QuotaStopPolling; StatusDispose;
             StatusShowLoading (Some "(5/21)"); DetectProcessInfo;
             QuotaInit 42101%Z "0f4c9a7e-token"; QuotaStartPolling 120%Z].
Proof.
  destruct (proj2 deactivate_leaves_retry_armed
              sample_armed 0 (Timer 4 5000%Z) sample_config sample_info
              eq_refl eq_refl eq_refl)
    as (s1 & s2 & Hfire & _ & Htm & Hsettle & _ & Hsig2).
  split; [reflexivity |]. split; [reflexivity |].
  exists s1, s2. split; [exact Hfire |]. split; [exact Htm |].
  split; [exact Hsettle |].
  rewrite Hsig2. reflexivity.
Defined.

(** * Further properties of the controller *)

(** ** What every turn appends to the trace *)

Lemma existsb_app_false (f : effect -> bool) (tr1 tr2 : list effect) :
  existsb f tr1 = false -> existsb f tr2 = false -> existsb f (tr1 ++ tr2) = false.
Proof. intros H1 H2. now rewrite existsb_app, H1, H2. Qed.

(** A turn only appends to the trace.  What it appends holds no user-facing
    error unless the turn is the quota manager's error callback, and when
    the turn sets the flag it holds the call that installs the
    connection. *)
Lemma step_appends (ev : event) (s s' : state) :
  step ev s = Some s' ->
  exists new,
    trace s' = trace s ++ new
    /\ (is_quota_error ev = false -> existsb is_user_error new = false)
    /\ (is_initialized s' = true ->
        is_initialized s = true \/ existsb is_quota_init new = true).
Proof.
  destruct s as [act init tms fl tr su].
  destruct ev as [version now cfg | | | cfg | cfg | | snapshot cfg | msg
                 | new_config | i cfg | i r |];
    unfold step, when_activated; cbn [activated timers in_flight]; intros H.
  - destruct act; [discriminate |]. injection H as <-.
    destruct init; handler_cbv; rewrite <- !app_assoc;
      eexists; (split; [reflexivity |]); cbn; auto.
  - destruct act; [| discriminate]. injection H as <-.
    handler_cbv. eexists; (split; [reflexivity |]); cbn; auto.
  - destruct act; [| discriminate]. injection H as <-.
    handler_cbv. eexists; (split; [reflexivity |]); cbn; auto.
  - destruct act; [| discriminate]. injection H as <-.
    destruct init; handler_cbv; rewrite <- !app_assoc;
      eexists; (split; [reflexivity |]); cbn; auto.
  - destruct act; [| discriminate]. injection H as <-.
    handler_cbv; rewrite <- !app_assoc.
    eexists; (split; [reflexivity |]); cbn; split; [auto | discriminate].
  - destruct act; [| discriminate]. injection H as <-.
    handler_cbv. eexists; (split; [reflexivity |]); cbn; auto.
  - destruct act; [| discriminate]. injection H as <-.
    handler_cbv. eexists; (split; [reflexivity |]); cbn; auto.
  - destruct act; [| discriminate]. injection H as <-.
    handler_cbv. eexists; (split; [reflexivity |]); cbn.
    split; [discriminate | auto].
  - destruct act; [| discriminate]. injection H as <-.
    handler_cbv; destruct (enabled new_config); rewrite <- !app_assoc;
      eexists; (split; [reflexivity |]); cbn; auto.
  - destruct (tms !! i) as [t0 |] eqn:Ht; [| discriminate].
    cbn in H. injection H as <-.
    destruct init; handler_cbv.
    + eexists; (split; [reflexivity |]); cbn; auto.
    + destruct (t_attempt t0 + 1 =? 0); rewrite <- ?app_assoc;
        eexists; (split; [reflexivity |]); cbn; split; auto; discriminate.
  - destruct (fl !! i) as [p |] eqn:Hp; [| discriminate].
    cbn [mbind option_bind] in H. injection H as <-.
    unfold initialize_extension_resume, try_block, catch_block.
    destruct r as [info | | e | v].
    + destruct (enabled (p_config p)); handler_cbv; rewrite <- !app_assoc;
        eexists; (split; [reflexivity |]); cbn; auto.
    + destruct (p_attempt p <? MAX_PHASE1_ATTEMPTS);
        [| destruct (p_attempt p <? MAX_ATTEMPTS)];
        handler_cbv; rewrite <- ?app_assoc;
        eexists; (split; [reflexivity |]); cbn; auto.
    + destruct (p_attempt p <? MAX_ATTEMPTS); handler_cbv; rewrite <- ?app_assoc;
        eexists; (split; [reflexivity |]); cbn; auto.
    + destruct (is_startup_call i _); handler_cbv.
      * eexists; (split; [reflexivity |]); cbn; auto.
      * exists []. rewrite app_nil_r. cbn. auto.
  - injection H as <-. handler_cbv. destruct act;
      rewrite <- ?app_assoc; eexists; (split; [reflexivity |]); cbn; auto.
Qed.

(** ** Discovery failures never reach the display as errors *)

(** Whatever the order of commands, timers and detection results, the
    controller never sends an error signal to the status bar and never
    opens an error dialog: in a run from module load without the quota
    manager's error callback, the trace holds no user-facing error. *)
Theorem discovery_never_shows_error :
  forall (evs : list event) (s : state),
    Forall (fun ev => is_quota_error ev = false) evs ->
    run evs init_state = Some s ->
    existsb is_user_error (trace s) = false.
Proof.
  intros evs s Hevs Hrun.
  assert (Hgen : forall evs s0 s1,
             Forall (fun ev => is_quota_error ev = false) evs ->
             run evs s0 = Some s1 ->
             existsb is_user_error (trace s0) = false ->
             existsb is_user_error (trace s1) = false).
  { clear. induction evs as [| ev evs IH]; intros s0 s1 Hevs Hrun Hquiet.
    - cbn in Hrun. now injection Hrun as <-.
    - cbn in Hrun. destruct (step ev s0) as [s' |] eqn:Hstep; [| discriminate].
      cbn in Hrun. inversion Hevs as [| ? ? Hev Hrest]; subst.
      apply (IH s' s1 Hrest Hrun).
      destruct (step_appends ev s0 s' Hstep) as (new & Htr & Hnew & _).
      rewrite Htr. apply existsb_app_false; auto. }
  exact (Hgen evs init_state s Hevs Hrun eq_refl).
Qed.

Lemma discovery_never_shows_error_witness :
  exists s,
    run (EvActivate sample_version sample_now sample_config
           :: consecutive_failures (fun _ => sample_config) 22) init_state = Some s
    /\ existsb is_user_error (trace s) = false.
Proof.
  eexists. split; [vm_compute; reflexivity |].
  apply (discovery_never_shows_error
           (EvActivate sample_version sample_now sample_config
              :: consecutive_failures (fun _ => sample_config) 22)).
  - repeat constructor.
  - vm_compute. reflexivity.
Defined.

(** ** The flag follows an installed connection *)

(** In every state a run from module load can reach, a set flag means that
    [quota_manager.init] has been called: the controller never reports
    itself initialized without having installed a connection. *)
Theorem initialized_after_connection_installed :
  forall (evs : list event) (s : state),
    run evs init_state = Some s ->
    is_initialized s = true ->
    existsb is_quota_init (trace s) = true.
Proof.
  intros evs s Hrun.
  assert (Hgen : forall evs s0 s1,
             run evs s0 = Some s1 ->
             (is_initialized s0 = true -> existsb is_quota_init (trace s0) = true) ->
             is_initialized s1 = true -> existsb is_quota_init (trace s1) = true).
  { clear. induction evs as [| ev evs IH]; intros s0 s1 Hrun Hinv.
    - cbn in Hrun. now injection Hrun as <-.
    - cbn in Hrun. destruct (step ev s0) as [s' |] eqn:Hstep; [| discriminate].
      cbn in Hrun. apply (IH s' s1 Hrun).
      destruct (step_appends ev s0 s' Hstep) as (new & Htr & _ & Hflag).
      intros Hset. rewrite Htr, existsb_app.
      destruct (Hflag Hset) as [Hold | Hnew].
      + now rewrite (Hinv Hold).
      + rewrite Hnew. apply orb_true_r. }
  apply (Hgen evs init_state s Hrun). discriminate.
Qed.

Lemma initialized_after_connection_installed_witness :
  exists s,
    run [EvActivate sample_version sample_now sample_config;
         EvDetectSettle 0 NotFound;
         EvTimerFire 0 sample_config;
         EvDetectSettle 0 (Found sample_info)] init_state = Some s
    /\ existsb is_quota_init (trace s) = true.
Proof.
  eexists. split; [vm_compute; reflexivity |].
  apply (initialized_after_connection_installed
           [EvActivate sample_version sample_now sample_config;
            EvDetectSettle 0 NotFound;
            EvTimerFire 0 sample_config;
            EvDetectSettle 0 (Found sample_info)]).
  - vm_compute. reflexivity.
  - reflexivity.
Defined.

(** ** Attempt numbers and delays stay inside the table *)

Lemma table_delay_in_phase (a : nat) (d : Z) :
  table_delay a = Some d -> timer_in_phase (Timer a d).
Proof.
  unfold table_delay, timer_in_phase. cbn [t_attempt t_delay].
  destruct (Nat.ltb_spec a 12) as [H12 | H12].
  - intros H. injection H as <-. auto.
  - destruct (Nat.ltb_spec a 21) as [H21 | H21]; [| discriminate].
    intros H. injection H as <-. right. auto.
Qed.

Lemma turn_keeps_bounds (s s' : state) (ev : event) :
  turn s ev s' ->
  Forall timer_in_phase (timers s) ->
  Forall (fun p => p_attempt p <= MAX_ATTEMPTS) (in_flight s) ->
  Forall timer_in_phase (timers s')
  /\ Forall (fun p => p_attempt p <= MAX_ATTEMPTS) (in_flight s').
Proof.
  rewrite max_attempts_value.
  intros Hturn Htimers Hflight.
  destruct Hturn as [ev s' _ _ Ht Hf _
                    | ev cfg s' _ _ _ Ht Hf _
                    | ev s' _ _ _ _ Ht Hf _
                    | i cfg t s' Hl _ _ Ht Hf _
                    | i cfg t s' Hl _ _ Ht Hf _
                    | i p info s' Hl _ Ht Hf _
                    | i p r s' Hl _ _ Ht Hf _
                    | i p v s' Hl _ Ht Hf _];
    rewrite Ht, Hf.
  - auto.
  - split; [auto |]. apply Forall_app. split; [auto |].
    constructor; [cbn; lia | constructor].
  - auto.
  - split; [now apply Forall_delete |].
    apply Forall_app. split; [auto |].
    constructor; [| constructor]. cbn.
    pose proof (Forall_lookup_1 _ _ _ _ Htimers Hl) as [[Hlt _] | [[_ Hlt] _]]; lia.
  - split; [now apply Forall_delete | auto].
  - split; [auto | now apply Forall_delete].
  - split; [| now apply Forall_delete].
    apply Forall_app. split; [auto |].
    destruct (table_delay (p_attempt p)) as [d |] eqn:Hd; [| constructor].
    constructor; [now apply table_delay_in_phase | constructor].
  - split; [auto | now apply Forall_delete].
Qed.

(** In every state a run from module load can reach, whatever the
    interleaving: each armed timer asks for 5 s after an attempt below 12
    and for 60 s after an attempt from 12 to 20, and no detection in flight
    has an attempt number above 21.  The retry never runs away. *)
Theorem attempts_stay_in_table :
  forall (evs : list event) (s : state),
    run evs init_state = Some s ->
    Forall timer_in_phase (timers s)
    /\ Forall (fun p => p_attempt p <= 21) (in_flight s).
Proof.
  intros evs s Hrun.
  assert (Hgen : forall evs s0 s1,
             run evs s0 = Some s1 ->
             Forall timer_in_phase (timers s0)
             /\ Forall (fun p => p_attempt p <= MAX_ATTEMPTS) (in_flight s0) ->
             Forall timer_in_phase (timers s1)
             /\ Forall (fun p => p_attempt p <= MAX_ATTEMPTS) (in_flight s1)).
  { clear. induction evs as [| ev evs IH]; intros s0 s1 Hrun [Ht Hf].
    - cbn in Hrun. injection Hrun as <-. auto.
    - cbn in Hrun. destruct (step ev s0) as [s' |] eqn:Hstep; [| discriminate].
      cbn in Hrun. apply (IH s' s1 Hrun).
      exact (turn_keeps_bounds s0 s' ev (step_turn ev s0 s' Hstep) Ht Hf). }
  apply (Hgen evs init_state s Hrun). split; constructor.
Qed.

Lemma attempts_stay_in_table_witness :
  exists s,
    run (EvActivate sample_version sample_now sample_config
           :: consecutive_failures (fun _ => sample_config) 21) init_state = Some s
    /\ Forall timer_in_phase (timers s)
    /\ Forall (fun p => p_attempt p <= 21) (in_flight s).
Proof.
  eexists. split; [vm_compute; reflexivity |].
  apply (attempts_stay_in_table
           (EvActivate sample_version sample_now sample_config
              :: consecutive_failures (fun _ => sample_config) 21)).
  vm_compute. reflexivity.
Defined.

(** ** A chain that keeps failing, from any attempt *)

Lemma scheduled_app (tr1 tr2 : list effect) :
  scheduled (tr1 ++ tr2) = scheduled tr1 ++ scheduled tr2.
Proof.
  induction tr1 as [| e tr1 IH]; [reflexivity |].
  destruct e; cbn; now rewrite ?IH.
Qed.

Lemma scheduled_signals (tr : list effect) :
  scheduled (signals tr) = scheduled tr.
Proof.
  unfold signals.
  induction tr as [| e tr IH]; [reflexivity |].
  destruct e; cbn; now rewrite ?IH.
Qed.

Lemma table_delay_retry (a : nat) :
  a < 21 -> table_delay a = Some (retry_delay a).
Proof.
  intros Ha. unfold table_delay, retry_delay. change MAX_PHASE1_ATTEMPTS with 12.
  destruct (a <? 12); [reflexivity |].
  destruct (Nat.ltb_spec a 21); [reflexivity | lia].
Qed.

(** One detection in flight at attempt [a], nothing armed, the flag clear:
    when every result from here on is not-found, the chain runs through
    the [21 - a] retries that are left and parks in the waiting state. *)
Lemma failing_chain (cfgs : nat -> config) (m : nat) :
  forall (b a : nat) (cfg : config) (s : state),
    a + m = 21 ->
    is_initialized s = false ->
    timers s = [] ->
    in_flight s = [Pending a cfg] ->
    exists s',
      run (EvDetectSettle 0 NotFound :: flat_map (retry_round cfgs) (seq b m)) s
      = Some s'
      /\ is_initialized s' = false
      /\ timers s' = []
      /\ in_flight s' = []
      /\ signals (trace s') = signals (trace s) ++ retry_signals a m.
Proof.
  induction m as [| m IH]; intros b a cfg s Ham Hinit Htimers Hflight.
  - (* the last attempt *)
    assert (Ha : a = 21) by lia. subst a.
    cbn [seq flat_map run].
    rewrite (step_detect_settle s 0 (Pending 21 cfg) NotFound)
      by (reflexivity || now rewrite Hflight).
    destruct (resume_failure_timers (Pending 21 cfg) NotFound
                (drop_in_flight 0 s) eq_refl) as (_ & Hi & Hf & Ht & Hs).
    eexists. split; [reflexivity |].
    rewrite Hi, Hf, Ht, Hs. cbn. rewrite Hflight, Htimers. auto.
  - (* a retry is left *)
    assert (Ha : a < 21) by lia.
    cbn [seq flat_map retry_round app run].
    rewrite (step_detect_settle s 0 (Pending a cfg) NotFound)
      by (reflexivity || now rewrite Hflight).
    destruct (resume_failure_timers (Pending a cfg) NotFound
                (drop_in_flight 0 s) eq_refl) as (_ & Hi & Hf & Ht & Hs).
    cbn [p_attempt] in Ht, Hs. rewrite (table_delay_retry a Ha) in Ht, Hs.
    set (s1 := fst (initialize_extension_resume (Pending a cfg) NotFound
                      (drop_in_flight 0 s))) in *.
    cbn [is_initialized timers in_flight trace drop_in_flight] in Hi, Hf, Ht, Hs.
    rewrite Htimers in Ht. rewrite Hflight in Hf. cbn in Ht, Hf.
    cbn [mbind option_bind].
    rewrite (step_timer_fire s1 0 (Timer a (retry_delay a)) (cfgs b))
      by now rewrite Ht.
    assert (Hclear : is_initialized (drop_timer 0 s1) = false)
      by (cbn; congruence).
    destruct (initialize_extension_starts (a + 1) (cfgs b) (drop_timer 0 s1) Hclear)
      as (_ & Hi2 & Ht2 & Hf2 & Hs2).
    cbn [t_attempt] in *.
    set (s2 := initialize_extension (a + 1) (cfgs b) (drop_timer 0 s1)) in *.
    cbn [timers in_flight trace drop_timer] in Ht2, Hf2, Hs2.
    rewrite Ht in Ht2. rewrite Hf in Hf2. cbn in Ht2, Hf2.
    cbn [mbind option_bind].
    destruct (IH (S b) (a + 1) (cfgs b) s2 ltac:(lia) Hi2 Ht2 Hf2)
      as (s' & Hrun & Hi' & Ht' & Hf' & Hs').
    exists s'. split; [exact Hrun |].
    split; [exact Hi' |]. split; [exact Ht' |]. split; [exact Hf' |].
    rewrite Hs', Hs2, Hs. cbn [retry_signals]. rewrite <- !app_assoc. reflexivity.
Qed.

(** From any state with nothing armed and nothing in flight, the waiting
    state included, a reconnect command followed by not-found results
    replays the whole schedule: 22 detections, the 12 short and 9 long
    delays in between, and then the waiting signal again with nothing
    armed. *)
Theorem reconnect_replays_schedule :
  forall (s : state) (cfg : config) (cfgs : nat -> config),
    activated s = true ->
    timers s = [] ->
    in_flight s = [] ->
    exists s',
      run (EvReconnect cfg :: consecutive_failures cfgs 22) s = Some s'
      /\ is_initialized s' = false
      /\ timers s' = []
      /\ in_flight s' = []
      /\ scheduled (trace s') = scheduled (trace s) ++ full_schedule
      /\ count is_detect (trace s') = count is_detect (trace s) + 22
      /\ last (signals (trace s')) = Some StatusShowWaiting.
Proof.
  intros s cfg cfgs Hact Htimers Hflight.
  destruct (cmd_reconnect_starts cfg s) as (Hi1 & Ht1 & Hf1 & Hs1).
  set (s1 := cmd_reconnect cfg s) in *.
  rewrite Htimers in Ht1. rewrite Hflight in Hf1. cbn in Hf1.
  destruct (failing_chain cfgs 21 0 0 cfg s1 eq_refl Hi1 Ht1 Hf1)
    as (s' & Hrun & Hi' & Ht' & Hf' & Hs').
  exists s'. split.
  { cbn [run]. unfold step, when_activated. rewrite Hact. exact Hrun. }
  split; [exact Hi' |]. split; [exact Ht' |]. split; [exact Hf' |].
  rewrite Hs1, <- app_assoc in Hs'.
  split; [| split].
  - rewrite <- (scheduled_signals (trace s')), Hs', scheduled_app, scheduled_signals.
    reflexivity.
  - rewrite <- (count_detect_signals (trace s')), Hs', count_app, count_detect_signals.
    reflexivity.
  - rewrite Hs', app_assoc. cbn [retry_signals].
    repeat rewrite app_comm_cons.
    match goal with
    | |- last (?l ++ ?r) = _ => change r with (removelast r ++ [StatusShowWaiting])
    end.
    rewrite app_assoc. apply last_snoc.
Qed.

Lemma reconnect_replays_schedule_witness :
  exists s',
    run (EvReconnect sample_config
           :: consecutive_failures (fun _ => sample_config) 22) sample_waiting
    = Some s'
    /\ timers s' = []
    /\ last (signals (trace s')) = Some StatusShowWaiting.
Proof.
  destruct (reconnect_replays_schedule
              sample_waiting sample_config (fun _ => sample_config)
              eq_refl eq_refl eq_refl)
    as (s' & Hrun & _ & Ht & _ & _ & _ & Hlast).
  exists s'. auto.
Defined.

(** ** No more than 22 detections per restart *)

Lemma list_sum_delete {A : Type} (f : A -> nat) (l : list A) (i : nat) (x : A) :
  l !! i = Some x ->
  list_sum (map f l) = f x + list_sum (map f (delete i l)).
Proof.
  unfold list_sum.
  revert i. induction l as [| y l IH]; intros [| i] H; try discriminate.
  - cbn in H. injection H as ->. reflexivity.
  - cbn in H. cbn. rewrite (IH i H). apply Nat.add_shuffle3.
Qed.

Lemma list_sum_snoc {A : Type} (f : A -> nat) (l : list A) (x : A) :
  list_sum (map f (l ++ [x])) = list_sum (map f l) + f x.
Proof. rewrite map_app, list_sum_app. cbn. lia. Qed.

(** A turn starts a detection only out of the budget, and only a restart
    adds to the budget, by 22. *)
Lemma turn_spends_budget (s s' : state) (ev : event) :
  turn s ev s' ->
  Forall timer_in_phase (timers s) ->
  count is_detect (trace s') + budget s'
  <= count is_detect (trace s) + budget s + (if restarts ev then 22 else 0).
Proof.
  unfold budget, attempts_left. rewrite max_attempts_value.
  intros Hturn Hphase.
  destruct Hturn as [ev s' Hre _ Ht Hf Hc
                    | ev cfg s' Hre _ _ Ht Hf Hc
                    | ev s' Hre _ _ _ Ht Hf Hc
                    | i cfg t s' Hl _ _ Ht Hf Hc
                    | i cfg t s' Hl _ _ Ht Hf Hc
                    | i p info s' Hl _ Ht Hf Hc
                    | i p r s' Hl _ _ Ht Hf Hc
                    | i p v s' Hl _ Ht Hf Hc];
    rewrite Ht, Hf, Hc.
  - lia.
  - rewrite Hre, list_sum_snoc. cbn. lia.
  - lia.
  - rewrite list_sum_snoc,
      (list_sum_delete (fun t => 21 - t_attempt t) (timers s) i t Hl).
    cbn.
    pose proof (Forall_lookup_1 _ _ _ _ Hphase Hl) as [[Hlt _] | [[_ Hlt] _]]; lia.
  - rewrite (list_sum_delete (fun t => 21 - t_attempt t) (timers s) i t Hl). cbn. lia.
  - rewrite (list_sum_delete (fun p => 21 - p_attempt p) (in_flight s) i p Hl). cbn. lia.
  - rewrite (list_sum_delete (fun p => 21 - p_attempt p) (in_flight s) i p Hl).
    unfold table_delay.
    destruct (Nat.ltb_spec (p_attempt p) 12);
      [| destruct (Nat.ltb_spec (p_attempt p) 21)];
      rewrite ?list_sum_snoc, ?app_nil_r; cbn; lia.
  - rewrite (list_sum_delete (fun p => 21 - p_attempt p) (in_flight s) i p Hl). cbn. lia.
Qed.

(** However commands, timers and results interleave, a run from module
    load starts at most 22 detections for each activation, activate
    command and reconnect command in it. *)
Theorem detections_bounded_by_restarts :
  forall (evs : list event) (s : state),
    run evs init_state = Some s ->
    count is_detect (trace s) <= 22 * length (List.filter restarts evs).
Proof.
  intros evs s Hrun.
  assert (Hgen : forall evs s0 s1,
             run evs s0 = Some s1 ->
             Forall timer_in_phase (timers s0) ->
             Forall (fun p => p_attempt p <= MAX_ATTEMPTS) (in_flight s0) ->
             count is_detect (trace s1) + budget s1
             <= count is_detect (trace s0) + budget s0
                + 22 * length (List.filter restarts evs)).
  { clear. induction evs as [| ev evs IH]; intros s0 s1 Hrun Ht Hf.
    - cbn in Hrun. injection Hrun as <-. cbn. lia.
    - cbn in Hrun. destruct (step ev s0) as [s' |] eqn:Hstep; [| discriminate].
      cbn in Hrun.
      pose proof (step_turn ev s0 s' Hstep) as Hturn.
      destruct (turn_keeps_bounds s0 s' ev Hturn Ht Hf) as [Ht' Hf'].
      pose proof (turn_spends_budget s0 s' ev Hturn Ht) as Hspend.
      specialize (IH s' s1 Hrun Ht' Hf').
      cbn [List.filter]. destruct (restarts ev); cbn [length]; lia. }
  specialize (Hgen evs init_state s Hrun ltac:(constructor) ltac:(constructor)).
  cbn in Hgen. lia.
Qed.

Lemma detections_bounded_by_restarts_witness :
  exists s,
    run (EvActivate sample_version sample_now sample_config
           :: consecutive_failures (fun _ => sample_config) 22) init_state = Some s
    /\ count is_detect (trace s) <= 22 * 1.
Proof.
  eexists. split; [vm_compute; reflexivity |].
  apply (detections_bounded_by_restarts
           (EvActivate sample_version sample_now sample_config
              :: consecutive_failures (fun _ => sample_config) 22)).
  vm_compute. reflexivity.
Defined.

(** ** The waiting state lasts *)

Lemma turn_keeps_parked (s s' : state) (ev : event) :
  turn s ev s' -> restarts ev = false ->
  timers s = [] -> in_flight s = [] ->
  timers s' = [] /\ in_flight s' = []
  /\ is_initialized s' = is_initialized s
  /\ count is_detect (trace s') = count is_detect (trace s).
Proof.
  intros Hturn Hev Htimers Hflight.
  destruct Hturn as [ev s' _ Hi Ht Hf Hc
                    | ev cfg s' Hre _ _ _ _ _
                    | ev s' Hre _ _ _ _ _ _
                    | i cfg t s' Hl _ _ _ _ _
                    | i cfg t s' Hl _ _ _ _ _
                    | i p info s' Hl _ _ _ _
                    | i p r s' Hl _ _ _ _ _
                    | i p v s' Hl _ _ _ _];
    try congruence.
  - rewrite Ht, Hf. auto.
  - rewrite Htimers in Hl. discriminate Hl.
  - rewrite Htimers in Hl. discriminate Hl.
  - rewrite Hflight in Hl. discriminate Hl.
  - rewrite Hflight in Hl. discriminate Hl.
  - rewrite Hflight in Hl. discriminate Hl.
Qed.

(** With nothing armed and nothing in flight, as in the waiting state, the
    controller stays as it is until the user acts: no sequence of turns
    without the activate and reconnect commands (refreshes, menu and log
    commands, quota updates and errors, configuration changes,
    deactivation) starts a detection, arms a timer or changes the flag. *)
Theorem waiting_lasts_until_restart :
  forall (evs : list event) (s s' : state),
    timers s = [] ->
    in_flight s = [] ->
    Forall (fun ev => restarts ev = false) evs ->
    run evs s = Some s' ->
    timers s' = [] /\ in_flight s' = []
    /\ is_initialized s' = is_initialized s
    /\ count is_detect (trace s') = count is_detect (trace s).
Proof.
  induction evs as [| ev evs IH]; intros s s' Htimers Hflight Hevs Hrun.
  - cbn in Hrun. injection Hrun as <-. auto.
  - cbn in Hrun. destruct (step ev s) as [s1 |] eqn:Hstep; [| discriminate].
    cbn in Hrun. inversion Hevs as [| ? ? Hev Hrest]; subst.
    destruct (turn_keeps_parked s s1 ev (step_turn ev s s1 Hstep) Hev
                Htimers Hflight) as (Ht1 & Hf1 & Hi1 & Hc1).
    destruct (IH s1 s' Ht1 Hf1 Hrest Hrun) as (Ht' & Hf' & Hi' & Hc').
    repeat split; congruence.
Qed.

Lemma waiting_lasts_until_restart_witness :
  exists s',
    run [EvRefresh; EvConfigChange sample_config; EvQuotaError "timeout";
         EvShowMenu; EvDeactivate] sample_waiting = Some s'
    /\ timers s' = [] /\ in_flight s' = []
    /\ is_initialized s' = false
    /\ count is_detect (trace s') = 0.
Proof.
  eexists. split; [vm_compute; reflexivity |].
  apply (waiting_lasts_until_restart
           [EvRefresh; EvConfigChange sample_config; EvQuotaError "timeout";
            EvShowMenu; EvDeactivate] sample_waiting).
  - reflexivity.
  - reflexivity.
  - repeat constructor.
  - vm_compute. reflexivity.
Defined.

(** * Properties of the status bar *)

Module StatusBarFacts.

Import StatusBar.

(** ** Table lookups *)

Lemma own_property_In (table : list (string * string)) (key v : string) :
  own_property table key = Some v -> In (key, v) table.
Proof.
  induction table as [| [k w] table IH]; [discriminate |].
  cbn. destruct (String.eqb_spec k key) as [-> | Hne].
  - intros [= ->]. now left.
  - intros H. right. now apply IH.
Qed.

Lemma array_includes_In (l : list string) (x : string) :
  array_includes l x = true <-> In x l.
Proof.
  induction l as [| y l IH]; cbn; [split; [discriminate | tauto] |].
  destruct (String.eqb_spec y x) as [-> | Hne]; cbn.
  - split; auto.
  - rewrite IH. split; [auto | intros [Heq | Hin]; [contradiction | exact Hin]].
Qed.

(** ** [get_simple_name] *)

(** The table of simple names never disagrees with the pattern matching
    behind it: for every label, [get_simple_name] returns what its
    fallback alone would compute, unless the label is the name of a member
    of [Object.prototype], for which the lookup returns that member. *)
Theorem simple_name_is_pattern_name :
  forall label : string,
    get_simple_name label
    = if array_includes OBJECT_PROTOTYPE_MEMBERS label
      then InheritedMember label
      else Name (simple_name_fallback label).
Proof.
  intros label. unfold get_simple_name, get_property.
  destruct (own_property MODEL_SIMPLE_NAMES label) as [v |] eqn:Hown.
  - apply own_property_In in Hown. cbn in Hown.
    repeat (destruct Hown as [[= <- <-] | Hown]; [vm_compute; reflexivity |]).
    contradiction.
  - destruct (array_includes OBJECT_PROTOTYPE_MEMBERS label); reflexivity.
Qed.

(** ** [toggle_pinned_model] *)

(** [indexOf] finds the first occurrence: the list splits there, and the
    part before it does not hold the element; or the element occurs
    nowhere. *)
Lemma index_of_spec (l : list string) (x : string) :
  (index_of l x = (-1)%Z /\ ~ In x l)
  \/ (exists l1 l2,
         l = l1 ++ x :: l2 /\ ~ In x l1
         /\ index_of l x = Z.of_nat (length l1)).
Proof.
  induction l as [| y l IH]; [left; cbn; tauto |].
  cbn [index_of]. destruct (String.eqb_spec y x) as [-> | Hne].
  - right. exists [], l. cbn. tauto.
  - destruct IH as [[Hidx Hnot] | (l1 & l2 & -> & Hnot & Hidx)].
    + left. rewrite Hidx. cbn. split; [reflexivity |].
      intros [Heq | Hin]; [contradiction | exact (Hnot Hin)].
    + right. exists (y :: l1), l2. rewrite Hidx.
      split; [reflexivity |]. split.
      * intros [Heq | Hin]; [contradiction | exact (Hnot Hin)].
      * destruct (Z.ltb_spec (Z.of_nat (length l1)) 0); [lia |].
        cbn [length]. lia.
Qed.

Lemma toggle_absent (cfg : settings) (x : string) :
  ~ In x (get_pinned_models cfg) ->
  toggle_pinned_model cfg x = get_pinned_models cfg ++ [x].
Proof.
  unfold toggle_pinned_model, get_pinned_models. intros Hnot.
  destruct (index_of_spec (default [] (pinnedModels cfg)) x)
    as [[Hidx _] | (l1 & l2 & Hl & _ & _)].
  - now rewrite Hidx.
  - exfalso. apply Hnot. rewrite Hl. apply in_or_app. right. now left.
Qed.

Lemma toggle_present (cfg : settings) (x : string) (l1 l2 : list string) :
  get_pinned_models cfg = l1 ++ x :: l2 -> ~ In x l1 ->
  toggle_pinned_model cfg x = l1 ++ l2.
Proof.
  unfold toggle_pinned_model, get_pinned_models. intros Hl Hnot.
  destruct (index_of_spec (default [] (pinnedModels cfg)) x)
    as [[_ Habs] | (k1 & k2 & Hk & Hnotk & Hidx)].
  - exfalso. apply Habs. rewrite Hl. apply in_or_app. right. now left.
  - rewrite Hidx, Hk.
    destruct (Z.leb_spec 0 (Z.of_nat (length k1))); [| lia].
    rewrite Nat2Z.id, delete_middle.
    rewrite Hl in Hk.
    assert (Hsame : l1 = k1 /\ l2 = k2).
    { clear -Hk Hnot Hnotk. revert k1 Hk Hnotk.
      induction l1 as [| a l1 IH]; intros [| b k1] Hk Hnotk; cbn in Hk.
      - injection Hk as ->. auto.
      - injection Hk as <- _. exfalso. apply Hnotk. now left.
      - injection Hk as -> _. exfalso. apply Hnot. now left.
      - injection Hk as -> Hk.
        destruct (IH (fun H => Hnot (or_intror H)) k1 Hk
                    (fun H => Hnotk (or_intror H))) as [-> ->]. auto. }
    now destruct Hsame as [-> ->].
Qed.

(** Toggling a model changes the pinned list at that model only.  A model
    that is not in the list is appended at the end.  A model that is in the
    list loses its first entry and no other: the list splits around the
    first entry into a front without the model and a rest, and the result
    is the front followed by the rest.  So the other models keep their
    places, the model's count goes from none to one or down by one, and a
    duplicated entry survives one toggle, the later one staying where it
    was. *)
Theorem toggle_changes_one_entry :
  forall (cfg : settings) (x : string),
    let before := get_pinned_models cfg in
    let after := toggle_pinned_model cfg x in
    ((array_includes before x = false /\ after = before ++ [x])
     \/ (exists l1 l2,
           before = l1 ++ x :: l2
           /\ array_includes l1 x = false
           /\ after = l1 ++ l2))
    /\ List.filter (fun y => negb (String.eqb y x)) after
       = List.filter (fun y => negb (String.eqb y x)) before
    /\ count_occ string_dec after x
       = (if array_includes before x
          then count_occ string_dec before x - 1
          else 1).
Proof.
  intros cfg x before after. subst before after.
  destruct (index_of_spec (get_pinned_models cfg) x)
    as [[_ Hnot] | (l1 & l2 & Hl & Hnot & _)].
  - rewrite (toggle_absent cfg x Hnot).
    destruct (array_includes (get_pinned_models cfg) x) eqn:Hinc;
      [apply array_includes_In in Hinc; contradiction |].
    split; [left; split; reflexivity |].
    rewrite List.filter_app, count_occ_app. cbn.
    rewrite String.eqb_refl. cbn. rewrite app_nil_r.
    split; [reflexivity |].
    destruct (string_dec x x); [| contradiction].
    rewrite (proj1 (count_occ_not_In string_dec _ x) Hnot). reflexivity.
  - rewrite (toggle_present cfg x l1 l2 Hl Hnot), Hl.
    assert (Hinc : array_includes (l1 ++ x :: l2) x = true).
    { apply array_includes_In, in_or_app. right. now left. }
    split.
    { right. exists l1, l2. split; [reflexivity |]. split; [| reflexivity].
      destruct (array_includes l1 x) eqn:H1; [| reflexivity].
      apply array_includes_In in H1. contradiction. }
    rewrite Hinc, !List.filter_app, !count_occ_app. cbn.
    rewrite String.eqb_refl. cbn.
    split; [reflexivity |].
    destruct (string_dec x x); [lia | contradiction].
Qed.

(** On a list without duplicates toggling is a real switch: the list stays
    free of duplicates, the model is pinned afterwards exactly when it was
    not before, and a second toggle gives back the same set of models, and
    the very same list when the model was not pinned at the start. *)
Theorem toggle_twice_restores :
  forall (cfg : settings) (x : string) (u : option bool),
    let before := get_pinned_models cfg in
    let after := toggle_pinned_model cfg x in
    let again := toggle_pinned_model (Settings (Some after) u) x in
    List.NoDup before ->
    List.NoDup after
    /\ array_includes after x = negb (array_includes before x)
    /\ Permutation again before
    /\ (array_includes before x = false -> again = before).
Proof.
  intros cfg x u before after again Hnodup. subst before after again.
  destruct (index_of_spec (get_pinned_models cfg) x)
    as [[_ Hnot] | (l1 & l2 & Hl & Hnot & _)].
  - (* not pinned: appended, then removed again *)
    rewrite (toggle_absent cfg x Hnot).
    assert (Hback : toggle_pinned_model
                      (Settings (Some (get_pinned_models cfg ++ [x])) u) x
                    = get_pinned_models cfg).
    { rewrite (toggle_present
                 (Settings (Some (get_pinned_models cfg ++ [x])) u) x
                 (get_pinned_models cfg) [] eq_refl Hnot).
      apply app_nil_r. }
    rewrite Hback.
    split; [| split; [| split]].
    + apply (Permutation_NoDup (Permutation_cons_append _ x)).
      now constructor.
    + destruct (array_includes (get_pinned_models cfg) x) eqn:Hinc;
        [apply array_includes_In in Hinc; contradiction |].
      apply array_includes_In, in_or_app. right. now left.
    + reflexivity.
    + reflexivity.
  - (* pinned: removed, then appended at the end *)
    rewrite (toggle_present cfg x l1 l2 Hl Hnot).
    rewrite Hl in Hnodup. apply List.NoDup_remove in Hnodup as [Hnodup Hout].
    assert (Hback : toggle_pinned_model (Settings (Some (l1 ++ l2)) u) x
                    = (l1 ++ l2) ++ [x]).
    { now rewrite (toggle_absent (Settings (Some (l1 ++ l2)) u) x). }
    rewrite Hback, Hl.
    assert (Hinc : array_includes (l1 ++ x :: l2) x = true).
    { apply array_includes_In, in_or_app. right. now left. }
    rewrite Hinc.
    split; [exact Hnodup |]. split; [| split].
    + destruct (array_includes (l1 ++ l2) x) eqn:Hafter; [| reflexivity].
      apply array_includes_In in Hafter. contradiction.
    + rewrite <- Permutation_cons_append. apply Permutation_middle.
    + discriminate.
Qed.

Lemma toggle_twice_restores_witness :
  toggle_pinned_model
    (Settings (Some (toggle_pinned_model
                       (Settings (Some ["gemini-3-pro"; "claude-sonnet"]) None)
                       "gemini-3-flash")) None)
    "gemini-3-flash"
  = ["gemini-3-pro"; "claude-sonnet"].
Proof.
  refine (proj2 (proj2 (proj2 (toggle_twice_restores
            (Settings (Some ["gemini-3-pro"; "claude-sonnet"]) None)
            "gemini-3-flash" None _))) eq_refl).
  repeat constructor; cbn; intuition discriminate.
Defined.

(** ** [get_abbreviation] *)

Lemma substring_length_le (n : nat) (s : string) :
  String.length (substring 0 n s) <= n.
Proof.
  revert s. induction n as [| n IH]; intros [| c s]; cbn; try lia.
  specialize (IH s). lia.
Qed.

Lemma string_forallb_substring (f : ascii -> bool) (n : nat) (s : string) :
  string_forallb f s = true -> string_forallb f (substring 0 n s) = true.
Proof.
  revert s. induction n as [| n IH]; intros [| c s]; cbn; auto.
  intros H. apply andb_true_iff in H as [Hc Hs].
  now rewrite Hc, (IH s Hs).
Qed.

Lemma string_forallb_append (f : ascii -> bool) (a b : string) :
  string_forallb f (a ++ b) = string_forallb f a && string_forallb f b.
Proof.
  induction a as [| c a IH]; cbn; [reflexivity |].
  now rewrite IH, andb_assoc.
Qed.

Lemma string_forallb_concat (f : ascii -> bool) (l : list string) :
  Forall (fun w => string_forallb f w = true) l ->
  string_forallb f (String.concat EmptyString l) = true.
Proof.
  induction 1 as [| w l Hw Hl IH]; [reflexivity |].
  cbn [String.concat]. destruct l as [| w' l]; [exact Hw |].
  rewrite string_forallb_append, Hw. cbn [append]. exact IH.
Qed.

Lemma digit_run_digits (s : string) :
  string_forallb is_caps_or_digit (digit_run s) = true.
Proof.
  induction s as [| c s IH]; cbn; [reflexivity |].
  destruct (is_digit c) eqn:Hc; cbn; [| reflexivity].
  unfold is_caps_or_digit at 1. now rewrite Hc, orb_true_r, IH.
Qed.

Lemma first_digits_digits (s : string) :
  string_forallb is_caps_or_digit (first_digits s) = true.
Proof.
  induction s as [| c s IH]; cbn; [reflexivity |].
  destruct (is_digit c) eqn:Hc; cbn; [| exact IH].
  unfold is_caps_or_digit at 1. now rewrite Hc, orb_true_r, digit_run_digits.
Qed.

Lemma to_upper_letter (c : ascii) :
  is_letter c = true -> is_caps_or_digit (to_upper c) = true.
Proof.
  destruct c as [[] [] [] [] [] [] [] []]; vm_compute; auto.
Qed.

Lemma line_terminator_is_separator (c : ascii) :
  is_line_terminator c = true -> is_separator c = true.
Proof.
  destruct c as [[] [] [] [] [] [] [] []]; vm_compute; auto.
Qed.

Lemma no_separator_no_terminator (w : string) :
  string_forallb not_separator w = true ->
  string_existsb is_line_terminator w = false.
Proof.
  induction w as [| c w IH]; cbn; [reflexivity |].
  intros H. apply andb_true_iff in H as [Hc Hw].
  rewrite (IH Hw), orb_false_r.
  destruct (is_line_terminator c) eqn:Ht; [| reflexivity].
  apply line_terminator_is_separator in Ht.
  unfold not_separator in Hc. now rewrite Ht in Hc.
Qed.

(** The pieces of a split hold no separator, hence no line terminator:
    the pattern of [abbreviate_word] matches every one of them. *)
Lemma split_from_words (s word : string) (in_run : bool) :
  string_forallb not_separator word = true ->
  Forall (fun w => string_forallb not_separator w = true)
         (split_from s word in_run).
Proof.
  revert word in_run. induction s as [| c s IH]; intros word in_run Hword; cbn.
  - now constructor.
  - destruct (is_separator c) eqn:Hc.
    + destruct in_run; [now apply IH |].
      constructor; [exact Hword | now apply IH].
    + apply IH. rewrite string_forallb_append, Hword. cbn.
      unfold not_separator. now rewrite Hc.
Qed.

Lemma abbreviate_word_caps (w : string) :
  string_forallb not_separator w = true ->
  string_forallb is_caps_or_digit (abbreviate_word w) = true.
Proof.
  intros Hw. unfold abbreviate_word, match_first_letter.
  rewrite (no_separator_no_terminator w Hw).
  destruct w as [| c w]; [reflexivity |].
  destruct (is_letter c) eqn:Hc.
  - rewrite string_forallb_append. cbn [string_map string_forallb].
    now rewrite (to_upper_letter c Hc), first_digits_digits.
  - cbn [string_map append]. apply first_digits_digits.
Qed.

(** For a label that is neither in the table nor the name of an inherited
    member, the abbreviation is the computed one: at most five characters,
    each a capital letter or a digit. *)
Theorem abbreviation_is_short_and_plain :
  forall label : string,
    own_property MODEL_ABBREVIATIONS label = None ->
    array_includes OBJECT_PROTOTYPE_MEMBERS label = false ->
    exists s,
      get_abbreviation label = Name s
      /\ String.length s <= 5
      /\ string_forallb is_caps_or_digit s = true.
Proof.
  intros label Hown Hproto.
  exists (abbreviation_fallback label). split; [| split].
  - unfold get_abbreviation, get_property. now rewrite Hown, Hproto.
  - apply substring_length_le.
  - apply string_forallb_substring, string_forallb_concat.
    apply List.Forall_map. unfold filter_boolean.
    apply List.Forall_forall. intros w Hin.
    apply List.filter_In in Hin as [Hin _].
    apply abbreviate_word_caps.
    pose proof (split_from_words label EmptyString false eq_refl) as Hall.
    rewrite List.Forall_forall in Hall. exact (Hall w Hin).
Qed.

Lemma abbreviation_is_short_and_plain_witness :
  exists s,
    get_abbreviation "Gemini 2.5 Pro (Preview)" = Name s
    /\ String.length s <= 5
    /\ string_forallb is_caps_or_digit s = true.
Proof.
  apply (abbreviation_is_short_and_plain "Gemini 2.5 Pro (Preview)");
    reflexivity.
Defined.

(** ** The item *)

Section Item.

Variable number : Type.
Variable to_fixed : number -> nat -> string.
Variable below_20 : number -> bool.
Variable l10n_t : string -> string.
Variable member_text : string -> string.

Local Abbreviation update := (update number to_fixed below_20 l10n_t member_text).
Local Abbreviation status_part := (status_part number to_fixed below_20 member_text).
Local Abbreviation shown_models := (shown_models number).

(** Every part opens with one of the three status icons, none of which is
    the rocket. *)
Lemma status_part_icon (cfg : settings) (q : model_quota_info number) :
  exists (c : ascii) (rest : string),
    status_part cfg q = String "$" (String "(" (String c rest))
    /\ c <> "r"%char.
Proof.
  unfold StatusBar.status_part.
  destruct (is_exhausted number q).
  - eexists _, _. split; [reflexivity | discriminate].
  - destruct (match remaining_percentage number q with
              | Some x => below_20 x
              | None => false
              end).
    + eexists _, _. split; [reflexivity | discriminate].
    + eexists _, _. split; [reflexivity | discriminate].
Qed.

Lemma update_text (cfg : settings) (snapshot : quota_snapshot number)
    (show_credits : bool) (m : manager number) :
  text (the_item number (update cfg snapshot show_credits m))
  = match shown_models cfg snapshot with
    | [] => "$(rocket) AGQ"
    | shown => String.concat "  " (map (status_part cfg) shown)
    end.
Proof.
  unfold StatusBar.update, shown_models. cbn [the_item show with_tooltip
    with_background with_text text].
  destruct (List.filter _ (models number snapshot)) as [| q shown];
    [now destruct show_credits | reflexivity].
Qed.

(** The [show_credits] argument changes nothing: [update] leaves the
    manager in the same state whether it is set or not. *)
Theorem update_ignores_show_credits :
  forall (cfg : settings) (snapshot : quota_snapshot number)
         (b1 b2 : bool) (m : manager number),
    update cfg snapshot b1 m = update cfg snapshot b2 m.
Proof.
  intros cfg snapshot b1 b2 m. unfold StatusBar.update.
  destruct (List.filter _ (models number snapshot)) as [| q shown];
    [now destruct b1, b2 | reflexivity].
Qed.

(** After [update] the item shows the bare rocket exactly when no model of
    the snapshot is pinned; otherwise it shows one part per pinned model
    of the snapshot, in the snapshot's order, joined by two spaces. *)
Theorem update_shows_pinned_models :
  forall (cfg : settings) (snapshot : quota_snapshot number)
         (show_credits : bool) (m : manager number),
    let shown := shown_models cfg snapshot in
    let new_text := text (the_item number (update cfg snapshot show_credits m)) in
    (new_text = "$(rocket) AGQ" <-> shown = [])
    /\ (shown <> [] ->
        new_text = String.concat "  " (map (status_part cfg) shown)).
Proof.
  intros cfg snapshot show_credits m shown new_text. subst new_text.
  rewrite update_text. fold shown.
  destruct shown as [| q shown]; [tauto |].
  split; [| reflexivity].
  split; [| discriminate].
  destruct (status_part_icon cfg q) as (c & rest & Hpart & Hc).
  cbn [map String.concat]. rewrite Hpart.
  destruct (map (status_part cfg) shown); cbn; intros [= Heq]; contradiction.
Qed.

(** The error look outlives [show_loading] and ends with [update]: after
    [show_error], [show_loading] changes the text to the spinner but keeps
    the error background and the error message as tooltip; [update]
    removes the background and puts the standard tooltip back. *)
Theorem error_look_until_update :
  forall (msg : string) (cfg : settings) (snapshot : quota_snapshot number)
         (show_credits : bool) (m : manager number),
    let loading := the_item number (show_loading number (show_error number msg m)) in
    let updated :=
      the_item number
        (update cfg snapshot show_credits
           (show_loading number (show_error number msg m))) in
    text loading = "$(sync~spin) AGQ"
    /\ backgroundColor loading = Some "statusBarItem.errorBackground"
    /\ tooltip loading = Some msg
    /\ backgroundColor updated = None
    /\ tooltip updated = Some (l10n_t "Click to view Antigravity Quota details")
    /\ shown updated = true.
Proof.
  intros msg cfg snapshot show_credits m. cbn. repeat split; reflexivity.
Qed.

End Item.

Lemma update_shows_pinned_models_witness :
  text (the_item Z
          (update Z (fun x _ => show_Z x) (fun x => (x <? 20)%Z) id id
                  (Settings (Some ["gemini-3-pro"]) None)
                  (QuotaSnapshot Z
                     [ModelQuotaInfo Z "gemini-3-pro" "Gemini 3 Pro (High)"
                        (Some 7%Z) false "1h"])
                  false (new_manager Z)))
  = "$(warning) Pro: 7%".
Proof.
  refine (proj2 (update_shows_pinned_models
                   Z (fun x _ => show_Z x) (fun x => (x <? 20)%Z) id id
                   (Settings (Some ["gemini-3-pro"]) None)
                   (QuotaSnapshot Z
                      [ModelQuotaInfo Z "gemini-3-pro" "Gemini 3 Pro (High)"
                         (Some 7%Z) false "1h"])
                   false (new_manager Z)) _).
  discriminate.
Defined.

End StatusBarFacts.

(** * Properties of the revision before the retry *)

Module Rev1Facts.

Ltac handler1 :=
  cbv beta iota zeta delta
    [Rev1.activate Rev1.cmd_activate Rev1.cmd_reconnect
     Rev1.initialize_extension Rev1.initialize_extension_resume
     Rev1.try_block Rev1.catch_block];
  handler_cbv.

(** A turn of this revision arms nothing, and starts a detection only when
    it is an activation, an activate command or a reconnect command. *)
Lemma step_detects_on_restart (ev : event) (s s' : state) :
  Rev1.step ev s = Some s' ->
  timers s' = timers s
  /\ count is_detect (trace s')
     <= count is_detect (trace s) + (if restarts ev then 1 else 0).
Proof.
  destruct s as [act init tms fl tr su].
  destruct ev as [version now cfg | | | cfg | cfg | | snapshot cfg | msg
                 | new_config | i cfg | i r |];
    unfold Rev1.step, when_activated; cbn [activated timers in_flight];
    intros H; try discriminate.
  - destruct act; [discriminate |]. injection H as <-.
    destruct init; handler1; split; auto; detect_count.
  - destruct act; [| discriminate]. injection H as <-.
    handler1; split; auto; detect_count.
  - destruct act; [| discriminate]. injection H as <-.
    handler1; split; auto; detect_count.
  - destruct act; [| discriminate]. injection H as <-.
    destruct init; handler1; split; auto; detect_count.
  - destruct act; [| discriminate]. injection H as <-.
    handler1; split; auto; detect_count.
  - destruct act; [| discriminate]. injection H as <-.
    handler1; split; auto; detect_count.
  - destruct act; [| discriminate]. injection H as <-.
    handler1; split; auto; detect_count.
  - destruct act; [| discriminate]. injection H as <-.
    handler1; split; auto; detect_count.
  - destruct act; [| discriminate]. injection H as <-.
    handler1; destruct (enabled new_config); split; auto; detect_count.
  - destruct (fl !! i) as [p |] eqn:Hp; [| discriminate].
    cbn [mbind option_bind] in H. injection H as <-.
    destruct (is_startup_call i _);
      destruct r as [info | | e | v]; handler1;
      try destruct (enabled (p_config p)); split; auto; detect_count.
  - injection H as <-. handler1. destruct act; split; auto; detect_count.
Qed.

(** The first revision never retries on its own: in a run from module
    load no timer is ever armed, and the detections started number at
    most one for each activation, activate command and reconnect
    command. *)
Theorem one_detection_per_restart :
  forall (evs : list event) (s : state),
    Rev1.run evs init_state = Some s ->
    timers s = []
    /\ count is_detect (trace s) <= length (List.filter restarts evs).
Proof.
  intros evs s Hrun.
  assert (Hgen : forall evs s0 s1,
             Rev1.run evs s0 = Some s1 ->
             timers s1 = timers s0
             /\ count is_detect (trace s1)
                <= count is_detect (trace s0) + length (List.filter restarts evs)).
  { clear. induction evs as [| ev evs IH]; intros s0 s1 Hrun.
    - cbn in Hrun. injection Hrun as <-. cbn. split; [reflexivity | lia].
    - cbn in Hrun. destruct (Rev1.step ev s0) as [s' |] eqn:Hstep; [| discriminate].
      cbn in Hrun.
      destruct (step_detects_on_restart ev s0 s' Hstep) as [Ht Hc].
      destruct (IH s' s1 Hrun) as [Ht' Hc'].
      split; [congruence |].
      cbn [List.filter]. destruct (restarts ev); cbn [length]; lia. }
  exact (Hgen evs init_state s Hrun).
Qed.

Lemma one_detection_per_restart_witness :
  exists s,
    Rev1.run [EvActivate sample_version sample_now sample_config;
              EvDetectSettle 0 NotFound;
              EvRefresh;
              EvReconnect sample_config;
              EvDetectSettle 0 (Raised sample_error)] init_state = Some s
    /\ timers s = []
    /\ count is_detect (trace s) <= 2.
Proof.
  eexists. split; [vm_compute; reflexivity |].
  apply (one_detection_per_restart
           [EvActivate sample_version sample_now sample_config;
            EvDetectSettle 0 NotFound;
            EvRefresh;
            EvReconnect sample_config;
            EvDetectSettle 0 (Raised sample_error)]).
  vm_compute. reflexivity.
Defined.

(** What the first revision does with each result of a detection.  A
    not-found result puts the error signal on the status bar and opens the
    error dialog; a raised value that can be read puts the signal
    "Detection failed" on the status bar, without a dialog; a rejection
    with [undefined] or [null] shows nothing at all, the catch block having
    thrown on its first read.  None of them arms a timer or touches the
    flag; only a found process sets it. *)
Theorem failure_is_shown :
  forall (s : state) (i : nat) (p : pending) (r : detect_result),
    in_flight s !! i = Some p ->
    exists s',
      Rev1.step (EvDetectSettle i r) s = Some s'
      /\ signals (trace s')
         = signals (trace s) ++
           match r with
           | NotFound =>
               [StatusShowError "Antigravity process not found";
                ShowErrorMessage
                  ("Could not find Antigravity process. Is it running? Use "
                   ++ String "034"%char
                        ("AGQ: Show Debug Log"
                         ++ String "034"%char " to see details."))]
           | Raised _ => [StatusShowError "Detection failed"]
           | RaisedNullish _ => []
           | Found info =>
               QuotaInit (connect_port info) (csrf_token info)
               :: (if enabled (p_config p)
                   then [QuotaStartPolling (polling_interval (p_config p))]
                   else [])
           end
      /\ timers s' = timers s
      /\ is_initialized s' = (if is_failure r || escapes r
                              then is_initialized s else true)
      /\ in_flight s' = delete i (in_flight s).
Proof.
  intros s i p r Hp. unfold Rev1.step. rewrite Hp. cbn [mbind option_bind].
  destruct s as [act init tms fl tr su].
  eexists. split; [reflexivity |].
  destruct (is_startup_call i _);
    destruct r as [info | | e | v]; handler1;
    try destruct (enabled (p_config p));
    rewrite ?signals_app, ?app_nil_r; cbn; rewrite <- ?app_assoc;
    repeat split; reflexivity.
Qed.

Lemma failure_is_shown_witness :
  exists s',
    Rev1.step (EvDetectSettle 0 (Raised sample_error)) sample_detecting = Some s'
    /\ signals (trace s') = [StatusShowError "Detection failed"]
    /\ timers s' = []
    /\ is_initialized s' = false.
Proof.
  destruct (failure_is_shown sample_detecting 0 (Pending 3 sample_config)
              (Raised sample_error) eq_refl)
    as (s' & Hstep & Hs & Ht & Hi & _).
  exists s'. auto.
Defined.

End Rev1Facts.
